(** * UserInfoManager: the user-profile cache of the mini-program

    A shallow embedding of [miniprogram/utils/userInfoManager.js] and the
    properties of its single-entry, time-expiring cache.

    The JavaScript of the module is embedded as functions of a state and
    exception monad over the host: the device storage behind
    [wx.getStorageSync] / [wx.setStorageSync] / [wx.removeStorageSync], the
    clock behind [Date.now], the profile source [wx.getUserProfile] and the
    console.  The built-ins of the language that the module calls
    ([JSON.stringify], [JSON.parse], the numeric coercion of the operands of
    [-]) form an interface, [JsRuntime]; the theorems hold for every
    implementation of it, and [refRuntime] is one to compute with. *)

From Stdlib Require Import ZArith String Ascii List Lia.
From stdpp Require Import base option strings pretty gmap fin_maps.

Set Warnings "-register-all".

Local Open Scope string_scope.
Local Open Scope Z_scope.

(** ** JavaScript values *)

(** Numbers: the integers and [NaN].  The numbers of this module are
    timestamps and durations in milliseconds, integral and far below 2^53,
    where the arithmetic of doubles is exact. *)
Inductive Num : Type :=
| NaN
| Int (z : Z).

(** The data values of JavaScript: what JSON denotes, and [undefined]. *)
Inductive JsValue : Type :=
| VUndefined
| VNull
| VBool (b : bool)
| VNumber (n : Num)
| VString (s : string)
| VArray (items : list JsValue)
| VObject (fields : list (string * JsValue)).

(** How an evaluation completes: normally with a value, or abruptly with a
    thrown value.  For the [async] function the two are the promise
    resolved and the promise rejected. *)
Inductive Outcome (A : Type) : Type :=
| Return (a : A)
| Throw (e : JsValue).
Arguments Return {A} a.
Arguments Throw {A} e.

(** ToBoolean: the test of [if (x)] and [!x]. *)
Definition truthy (v : JsValue) : bool :=
  match v with
  | VUndefined | VNull => false
  | VBool b => b
  | VNumber NaN => false
  | VNumber (Int z) => negb (z =? 0)
  | VString s => negb (String.eqb s "")
  | VArray _ | VObject _ => true
  end.

(** An error object as the language throws it. *)
Definition TypeError (message : string) : JsValue :=
  VObject [("name", VString "TypeError"); ("message", VString message);
           ("stack", VString ("TypeError: " +:+ message))].

Definition SyntaxError (message : string) : JsValue :=
  VObject [("name", VString "SyntaxError"); ("message", VString message);
           ("stack", VString ("SyntaxError: " +:+ message))].

Fixpoint lookupField (name : string) (fields : list (string * JsValue)) : JsValue :=
  match fields with
  | [] => VUndefined
  | (k, v) :: rest => if String.eqb k name then v else lookupField name rest
  end.

(** Property read [v.name].  It throws a TypeError on [undefined] and
    [null]; an object yields the field, or [undefined] when it has none. The
    names read by this module ([timestamp], [data], [userInfo], [message],
    [stack]) are no property of a primitive or of an array, which yield
    [undefined]. *)
Definition getProp (v : JsValue) (name : string) : Outcome JsValue :=
  match v with
  | VUndefined => Throw (TypeError ("Cannot read properties of undefined (reading '" +:+ name +:+ "')"))
  | VNull => Throw (TypeError ("Cannot read properties of null (reading '" +:+ name +:+ "')"))
  | VObject fields => Return (lookupField name fields)
  | _ => Return VUndefined
  end.

(** ** The built-ins of the language *)

Class JsRuntime : Type := {
  (** [JSON.stringify(v)] *)
  JSON_stringify : JsValue -> Outcome JsValue;
  (** [JSON.parse(text)]; the argument is coerced to a string *)
  JSON_parse : JsValue -> Outcome JsValue;
  (** the numeric value of a string operand *)
  StringToNumber : string -> Num;
  (** the numeric value of an array or object operand *)
  ObjectToNumber : JsValue -> Outcome Num
}.

Section Arithmetic.
Context {js : JsRuntime}.

Definition ToNumber (v : JsValue) : Outcome Num :=
  match v with
  | VUndefined => Return NaN
  | VNull => Return (Int 0)
  | VBool b => Return (Int (if b then 1 else 0))
  | VNumber n => Return n
  | VString s => Return (StringToNumber s)
  | VArray _ | VObject _ => ObjectToNumber v
  end.

Definition numSub (a b : Num) : Num :=
  match a, b with
  | Int x, Int y => Int (x - y)
  | _, _ => NaN
  end.

(** [a < b] on numbers: false as soon as an operand is [NaN]. *)
Definition numLt (a b : Num) : bool :=
  match a, b with
  | Int x, Int y => x <? y
  | _, _ => false
  end.

(** [a - b]: both operands are coerced, the left one first. *)
Definition jsSub (a b : JsValue) : Outcome Num :=
  match ToNumber a with
  | Throw e => Throw e
  | Return x =>
      match ToNumber b with
      | Throw e => Throw e
      | Return y => Return (numSub x y)
      end
  end.
End Arithmetic.

(** ** The host *)

Inductive Channel : Type := Log | Warn | Error.

(** The calls the module makes to its collaborators. *)
Inductive Event : Type :=
| GetStorageSync (key : string)
| SetStorageSync (key : string) (data : JsValue)
| RemoveStorageSync (key : string)
| GetUserProfile (options : JsValue)
| Console (channel : Channel) (args : list JsValue).

(** The state of the host.  [storage] is the device storage; [clock] is
    what [Date.now()] reads.  The three faults say whether the storage
    primitive throws when called, and what; [userProfile] is how the awaited
    [wx.getUserProfile] settles and [latency] the time it takes.  [trace]
    records the calls made, the latest first. *)
Record Host : Type := {
  storage : gmap string JsValue;
  clock : Z;
  getStorageFault : option JsValue;
  setStorageFault : option JsValue;
  removeStorageFault : option JsValue;
  userProfile : Outcome JsValue;
  latency : Z;
  trace : list Event
}.

Definition withStorage (m : gmap string JsValue) (h : Host) : Host :=
  {| storage := m; clock := clock h;
     getStorageFault := getStorageFault h; setStorageFault := setStorageFault h;
     removeStorageFault := removeStorageFault h;
     userProfile := userProfile h; latency := latency h; trace := trace h |}.

Definition withClock (t : Z) (h : Host) : Host :=
  {| storage := storage h; clock := t;
     getStorageFault := getStorageFault h; setStorageFault := setStorageFault h;
     removeStorageFault := removeStorageFault h;
     userProfile := userProfile h; latency := latency h; trace := trace h |}.

Definition emit (ev : Event) (h : Host) : Host :=
  {| storage := storage h; clock := clock h;
     getStorageFault := getStorageFault h; setStorageFault := setStorageFault h;
     removeStorageFault := removeStorageFault h;
     userProfile := userProfile h; latency := latency h; trace := ev :: trace h |}.

(** ** The monad of the module's code *)

Definition M (A : Type) : Type := Host -> Outcome A * Host.

Definition ret {A} (a : A) : M A := fun h => (Return a, h).

Definition throw {A} (e : JsValue) : M A := fun h => (Throw e, h).

Definition bind {A B} (m : M A) (k : A -> M B) : M B :=
  fun h =>
    match m h with
    | (Return a, h') => k a h'
    | (Throw e, h') => (Throw e, h')
    end.

(** [try { body } catch (error) { handler }] *)
Definition tryCatch {A} (body : M A) (handler : JsValue -> M A) : M A :=
  fun h =>
    match body h with
    | (Return a, h') => (Return a, h')
    | (Throw e, h') => handler e h'
    end.

(** A pure evaluation that may throw. *)
Definition lift {A} (o : Outcome A) : M A := fun h => (o, h).

Declare Scope js_scope.
Delimit Scope js_scope with js.
Notation "'let*' x ':=' m 'in' k" := (bind m (fun x => k))
  (at level 10, x name, m at level 100, k at level 200, only parsing) : js_scope.
Notation "m ';;' k" := (bind m (fun _ => k))
  (at level 100, k at level 200, right associativity, only parsing) : js_scope.

(** *** The collaborators *)

(** [wx.getStorageSync(key)]: the stored value, the empty string when there
    is none. *)
Definition wx_getStorageSync (key : string) : M JsValue :=
  fun h =>
    let h' := emit (GetStorageSync key) h in
    match getStorageFault h with
    | Some e => (Throw e, h')
    | None => (Return (default (VString "") (storage h !! key)), h')
    end.

(** [wx.setStorageSync(key, data)] *)
Definition wx_setStorageSync (key : string) (data : JsValue) : M unit :=
  fun h =>
    let h' := emit (SetStorageSync key data) h in
    match setStorageFault h with
    | Some e => (Throw e, h')
    | None => (Return tt, withStorage (<[key := data]> (storage h)) h')
    end.

(** [wx.removeStorageSync(key)] *)
Definition wx_removeStorageSync (key : string) : M unit :=
  fun h =>
    let h' := emit (RemoveStorageSync key) h in
    match removeStorageFault h with
    | Some e => (Throw e, h')
    | None => (Return tt, withStorage (delete key (storage h)) h')
    end.

(** [await wx.getUserProfile(options)]: the code resumes when the call has
    settled, [latency] later. *)
Definition wx_getUserProfile (options : JsValue) : M JsValue :=
  fun h =>
    (userProfile h, withClock (clock h + latency h) (emit (GetUserProfile options) h)).

(** [Date.now()] *)
Definition Date_now : M Z := fun h => (Return (clock h), h).

(** [console.log], [console.warn], [console.error] *)
Definition console (channel : Channel) (args : list JsValue) : M unit :=
  fun h => (Return tt, emit (Console channel args) h).

(** ** The class UserInfoManager *)

(** The fields the constructor sets on the instance. *)
Record UserInfoManager : Type := {
  CACHE_EXPIRE : Z;
  cacheKey : string
}.

Section Methods.
Context {js : JsRuntime}.
Variable this : UserInfoManager.

Local Open Scope js_scope.

Definition reportError (action : string) (error : JsValue) : M unit :=
  let* message := lift (getProp error "message") in
  let* stack := lift (getProp error "stack") in
  console Warn [VString "⚠️ 错误上报:";
                VObject [("action", VString action); ("message", message); ("stack", stack)]].

Definition clearCachedUserInfo : M unit :=
  tryCatch
    (wx_removeStorageSync (cacheKey this) ;;
     console Log [VString "🗑️ 已清除用户信息缓存"])
    (fun error =>
       console Error [VString "❌ 清除用户信息缓存失败:"; error]).

Definition setCachedUserInfo (userInfo : JsValue) : M unit :=
  tryCatch
    (let* now := Date_now in
     let cache := VObject [("data", userInfo); ("timestamp", VNumber (Int now))] in
     let* text := lift (JSON_stringify cache) in
     wx_setStorageSync (cacheKey this) text)
    (fun error =>
       console Error [VString "❌ 缓存用户信息失败:"; error]).

Definition getCachedUserInfo : M JsValue :=
  tryCatch
    (let* cacheStr := wx_getStorageSync (cacheKey this) in
     if negb (truthy cacheStr) then ret VNull
     else
       let* cache := lift (JSON_parse cacheStr) in
       let* now := Date_now in
       let* timestamp := lift (getProp cache "timestamp") in
       let* age := lift (jsSub (VNumber (Int now)) timestamp) in
       if numLt age (Int (CACHE_EXPIRE this)) then
         lift (getProp cache "data")
       else
         (console Log [VString "⌛ 用户信息缓存已过期，将重新获取"] ;;
          clearCachedUserInfo ;;
          ret VNull))
    (fun error =>
       console Error [VString "❌ 读取用户信息缓存失败:"; error] ;;
       ret VNull).

Definition getUserInfo (forceRefresh : bool) : M JsValue :=
  (* 1. the cache first *)
  let* hit :=
    (if negb forceRefresh then
       let* cachedInfo := getCachedUserInfo in
       if truthy cachedInfo then
         (console Log [VString "✅ 从缓存获取用户信息:"; cachedInfo] ;;
          ret (Some cachedInfo))
       else ret None
     else ret None) in
  match hit with
  | Some cachedInfo => ret cachedInfo
  | None =>
      (* 2. no usable cache, or a forced refresh: the host API *)
      tryCatch
        (let* res := wx_getUserProfile
                       (VObject [("desc", VString "用于为您提供个性化服务")]) in
         (* 3. cache what was fetched *)
         let* userInfo := lift (getProp res "userInfo") in
         setCachedUserInfo userInfo ;;
         let* logged := lift (getProp res "userInfo") in
         console Log [VString "✅ 成功获取并缓存用户信息:"; logged] ;;
         lift (getProp res "userInfo"))
        (fun error =>
           console Error [VString "❌ 获取用户信息失败:"; error] ;;
           reportError "getUserInfo" error ;;
           ret VNull)
  end.
End Methods.

(** The instance the module exports: the object its constructor builds
    (see [Singleton.moduleLoad_exports]). *)
Definition userInfoManager : UserInfoManager :=
  {| CACHE_EXPIRE := 86400000; cacheKey := "user_info_cache" |}.

(** ** The constructor and the class's static field *)

Module Singleton.
(** An object of the class in the heap.  [new] allocates it without
    fields; the constructor assigns them. *)
Record Object : Type := {
  objCACHE_EXPIRE : option Z;
  objCacheKey : option string
}.

(** [instance] is the static field [UserInfoManager.instance]. *)
Record Realm : Type := {
  heap : gmap nat Object;
  nextRef : nat;
  instance : option nat
}.

Definition blank : Object := {| objCACHE_EXPIRE := None; objCacheKey := None |}.

(** [new UserInfoManager()]: a fresh [this] is allocated and the
    constructor runs on it; the object the constructor returns, if it
    returns one, is the value of the expression. *)
Definition new_UserInfoManager (r : Realm) : nat * Realm :=
  let this := nextRef r in
  let allocated := <[this := blank]> (heap r) in
  match instance r with
  | Some existing =>
      (existing, {| heap := allocated; nextRef := S this; instance := Some existing |})
  | None =>
      (this,
       {| heap := <[this := {| objCACHE_EXPIRE := Some 86400000;
                               objCacheKey := Some "user_info_cache" |}]> allocated;
          nextRef := S this;
          instance := Some this |})
  end.

(** The realm in which the module is loaded: the class has just been
    declared. *)
Definition freshRealm : Realm := {| heap := ∅; nextRef := O; instance := None |}.

(** [const userInfoManager = new UserInfoManager()] *)
Definition moduleLoad : nat * Realm := new_UserInfoManager freshRealm.

(** [n] further evaluations of [new UserInfoManager()]: the references
    they yield, in order, and the realm they leave. *)
Fixpoint construct (n : nat) (r : Realm) : list nat * Realm :=
  match n with
  | O => ([], r)
  | S n' =>
      let '(ref, r') := new_UserInfoManager r in
      let '(refs, r'') := construct n' r' in
      (ref :: refs, r'')
  end.

(** The fields of the object behind a reference, once both are assigned. *)
Definition fieldsOf (r : Realm) (ref : nat) : option UserInfoManager :=
  match heap r !! ref with
  | Some {| objCACHE_EXPIRE := Some expire; objCacheKey := Some key |} =>
      Some {| CACHE_EXPIRE := expire; cacheKey := key |}
  | _ => None
  end.
End Singleton.

(** ** A reference runtime

    An executable [JsRuntime] on the fragment of JSON whose numerals are
    integers and whose [\u] escapes are below 128.  It is what the examples
    below run on. *)

Module RefJson.
Local Open Scope char_scope.
Local Open Scope Z_scope.

Definition isSpace (c : ascii) : bool :=
  match c with
  | " " | "009" | "010" | "013" => true
  | _ => false
  end.

Definition digitOf (c : ascii) : option Z :=
  let n := Z.of_nat (nat_of_ascii c) in
  if (48 <=? n) && (n <=? 57) then Some (n - 48) else None.

Fixpoint skipSpace (s : string) : string :=
  match s with
  | String c rest => if isSpace c then skipSpace rest else s
  | EmptyString => s
  end.

Fixpoint stripPrefix (p s : string) : option string :=
  match p, s with
  | EmptyString, _ => Some s
  | String a p', String b s' => if Ascii.eqb a b then stripPrefix p' s' else None
  | String _ _, EmptyString => None
  end.

Fixpoint readDigits (acc : Z) (s : string) : Z * string :=
  match s with
  | String c rest =>
      match digitOf c with
      | Some d => readDigits (10 * acc + d) rest
      | None => (acc, s)
      end
  | EmptyString => (acc, s)
  end.

(** An unsigned JSON integer: [0], or digits that do not start with [0];
    a fraction or an exponent after it is outside the fragment. *)
Definition readNatural (s : string) : option (Z * string) :=
  match s with
  | String c rest =>
      match digitOf c with
      | None => None
      | Some d =>
          let '(n, rest') := if d =? 0 then (0, rest) else readDigits d rest in
          match rest' with
          | String c' _ =>
              if match digitOf c' with Some _ => true | None => false end
                 || Ascii.eqb c' "." || Ascii.eqb c' "e" || Ascii.eqb c' "E"
              then None else Some (n, rest')
          | EmptyString => Some (n, rest')
          end
      end
  | EmptyString => None
  end.

Definition hexValue (c : ascii) : option nat :=
  let n := nat_of_ascii c in
  if ((48 <=? n) && (n <=? 57))%nat then Some (n - 48)%nat
  else if ((97 <=? n) && (n <=? 102))%nat then Some (n - 87)%nat
  else if ((65 <=? n) && (n <=? 70))%nat then Some (n - 55)%nat
  else None.

(** The character of [\uXXXX], for a code below 128. *)
Definition unicodeEscape (a b c d : ascii) : option ascii :=
  match hexValue a, hexValue b, hexValue c, hexValue d with
  | Some 0%nat, Some 0%nat, Some x, Some y =>
      if (16 * x + y <? 128)%nat then Some (ascii_of_nat (16 * x + y)) else None
  | _, _, _, _ => None
  end.

(** The characters of a string literal, after its opening quote. *)
Fixpoint readString (s : string) : option (string * string) :=
  match s with
  | EmptyString => None
  | String "034" rest => Some (EmptyString, rest)
  | String "\" (String "u" (String a (String b (String c (String d rest))))) =>
      match unicodeEscape a b c d, readString rest with
      | Some ch, Some (text, rest') => Some (String ch text, rest')
      | _, _ => None
      end
  | String "\" (String e rest) =>
      let unescaped :=
        match e with
        | "034" => Some "034"
        | "\" => Some "\"
        | "/" => Some "/"
        | "b" => Some "008"
        | "f" => Some "012"
        | "n" => Some "010"
        | "r" => Some "013"
        | "t" => Some "009"
        | _ => None
        end in
      match unescaped, readString rest with
      | Some c, Some (text, rest') => Some (String c text, rest')
      | _, _ => None
      end
  | String c rest =>
      if (nat_of_ascii c <? 32)%nat then None
      else match readString rest with
           | Some (text, rest') => Some (String c text, rest')
           | None => None
           end
  end.

(** A later duplicate of a key replaces the value of the earlier one. *)
Fixpoint setField (k : string) (v : JsValue) (fields : list (string * JsValue))
  : list (string * JsValue) :=
  match fields with
  | [] => [(k, v)]
  | (k', v') :: rest =>
      if String.eqb k' k then (k', v) :: rest else (k', v') :: setField k v rest
  end.

Fixpoint parseValue (fuel : nat) (s : string) : option (JsValue * string) :=
  match fuel with
  | O => None
  | S fuel' =>
      match skipSpace s with
      | String "034" rest =>
          match readString rest with
          | Some (text, rest') => Some (VString text, rest')
          | None => None
          end
      | String "[" rest =>
          match skipSpace rest with
          | String "]" rest' => Some (VArray [], rest')
          | _ => match parseItems fuel' rest with
                 | Some (items, rest') => Some (VArray items, rest')
                 | None => None
                 end
          end
      | String "{" rest =>
          match skipSpace rest with
          | String "}" rest' => Some (VObject [], rest')
          | _ => match parseMembers fuel' [] rest with
                 | Some (fields, rest') => Some (VObject fields, rest')
                 | None => None
                 end
          end
      | String "-" rest =>
          match readNatural rest with
          | Some (n, rest') => Some (VNumber (Int (- n)), rest')
          | None => None
          end
      | String _ _ as s' =>
          match stripPrefix "null" s', stripPrefix "true" s', stripPrefix "false" s' with
          | Some rest', _, _ => Some (VNull, rest')
          | _, Some rest', _ => Some (VBool true, rest')
          | _, _, Some rest' => Some (VBool false, rest')
          | _, _, _ =>
              match readNatural s' with
              | Some (n, rest') => Some (VNumber (Int n), rest')
              | None => None
              end
          end
      | EmptyString => None
      end
  end
with parseItems (fuel : nat) (s : string) : option (list JsValue * string) :=
  match fuel with
  | O => None
  | S fuel' =>
      match parseValue fuel' s with
      | None => None
      | Some (v, rest) =>
          match skipSpace rest with
          | String "]" rest' => Some ([v], rest')
          | String "," rest' =>
              match parseItems fuel' rest' with
              | Some (items, rest'') => Some (v :: items, rest'')
              | None => None
              end
          | _ => None
          end
      end
  end
with parseMembers (fuel : nat) (acc : list (string * JsValue)) (s : string)
  : option (list (string * JsValue) * string) :=
  match fuel with
  | O => None
  | S fuel' =>
      match skipSpace s with
      | String "034" rest =>
          match readString rest with
          | None => None
          | Some (key, rest') =>
              match skipSpace rest' with
              | String ":" rest'' =>
                  match parseValue fuel' rest'' with
                  | None => None
                  | Some (v, rest3) =>
                      let acc' := setField key v acc in
                      match skipSpace rest3 with
                      | String "}" rest4 => Some (acc', rest4)
                      | String "," rest4 => parseMembers fuel' acc' rest4
                      | _ => None
                      end
                  end
              | _ => None
              end
          end
      | _ => None
      end
  end.

(** The whole text is one value, with white space around it. *)
Definition parseText (s : string) : Outcome JsValue :=
  match parseValue (2 * String.length s + 2) s with
  | Some (v, rest) =>
      match skipSpace rest with
      | EmptyString => Return v
      | _ => Throw (SyntaxError "Unexpected non-whitespace character after JSON")
      end
  | None => Throw (SyntaxError "Unexpected token in JSON")
  end.

Definition hexDigit (n : nat) : ascii :=
  ascii_of_nat (if (n <? 10)%nat then 48 + n else 87 + n).

Fixpoint quoteChars (s : string) : string :=
  match s with
  | EmptyString => EmptyString
  | String c rest =>
      let tail := quoteChars rest in
      match c with
      | "034" => String "\" (String "034" tail)
      | "\" => String "\" (String "\" tail)
      | "008" => String "\" (String "b" tail)
      | "012" => String "\" (String "f" tail)
      | "010" => String "\" (String "n" tail)
      | "013" => String "\" (String "r" tail)
      | "009" => String "\" (String "t" tail)
      | _ =>
          let n := nat_of_ascii c in
          if (n <? 32)%nat then
            String "\" (String "u" (String "0" (String "0"
              (String (hexDigit (n / 16)) (String (hexDigit (n mod 16)) tail)))))
          else String c tail
      end
  end.

Definition quote (s : string) : string :=
  String "034" (quoteChars s +:+ String "034" EmptyString).

Fixpoint joinWith (sep : string) (parts : list string) : string :=
  match parts with
  | [] => EmptyString
  | [p] => p
  | p :: rest => p +:+ sep +:+ joinWith sep rest
  end.

Definition printNum (n : Num) : string :=
  match n with
  | NaN => "null"%string
  | Int z => pretty z
  end.

(** The text of a value inside an array or an object. *)
Fixpoint printValue (v : JsValue) : string :=
  match v with
  | VUndefined | VNull => "null"%string
  | VBool true => "true"%string
  | VBool false => "false"%string
  | VNumber n => printNum n
  | VString s => quote s
  | VArray items =>
      ("[" +:+ joinWith "," (map printValue items) +:+ "]")%string
  | VObject fields =>
      ("{" +:+ joinWith ","
         (flat_map (fun kv =>
                      match kv with
                      | (_, VUndefined) => []
                      | (k, v') => [quote k +:+ ":" +:+ printValue v']
                      end) fields) +:+ "}")%string
  end.

Definition stringify (v : JsValue) : Outcome JsValue :=
  match v with
  | VUndefined => Return VUndefined
  | _ => Return (VString (printValue v))
  end.

(** ToString, as [JSON.parse] and the numeric coercion apply it. *)
Fixpoint toString (v : JsValue) : string :=
  match v with
  | VUndefined => "undefined"%string
  | VNull => "null"%string
  | VBool true => "true"%string
  | VBool false => "false"%string
  | VNumber NaN => "NaN"%string
  | VNumber (Int z) => pretty z
  | VString s => s
  | VArray items =>
      joinWith ","
        (map (fun item =>
                match item with
                | VUndefined | VNull => EmptyString
                | _ => toString item
                end) items)
  | VObject _ => "[object Object]"%string
  end.

Definition parse (text : JsValue) : Outcome JsValue := parseText (toString text).

(** A decimal integer with white space around it; the empty text is 0. *)
Definition stringToNumber (s : string) : Num :=
  match skipSpace s with
  | EmptyString => Int 0
  | String c rest as s' =>
      let '(sign, body) :=
        if Ascii.eqb c "-" then (-1, rest)
        else if Ascii.eqb c "+" then (1, rest) else (1, s') in
      match body with
      | String d _ =>
          match digitOf d with
          | None => NaN
          | Some _ =>
              let '(n, rest') := readDigits 0 body in
              match skipSpace rest' with
              | EmptyString => Int (sign * n)
              | _ => NaN
              end
          end
      | EmptyString => NaN
      end
  end.

(** An array is coerced through its text.  An object of data has no
    primitive value: its text is [[object Object]], and with an own
    [toString] field, which is no function, the coercion throws. *)
Definition objectToNumber (v : JsValue) : Outcome Num :=
  match v with
  | VObject fields =>
      if existsb (fun kv => String.eqb (fst kv) "toString") fields
      then Throw (TypeError "Cannot convert object to primitive value")
      else Return NaN
  | _ => Return (stringToNumber (toString v))
  end.
End RefJson.

#[export] Instance refRuntime : JsRuntime := {|
  JSON_stringify := RefJson.stringify;
  JSON_parse := RefJson.parse;
  StringToNumber := RefJson.stringToNumber;
  ObjectToNumber := RefJson.objectToNumber
|}.

(** The record the manager serializes for a profile. *)
Definition cacheRecord (userInfo : JsValue) (timestamp : Z) : JsValue :=
  VObject [("data", userInfo); ("timestamp", VNumber (Int timestamp))].

Definition sampleProfile : JsValue :=
  VObject [("nickName", VString "A"); ("gender", VNumber (Int 1))].

(** ** Hosts to compute with *)

Definition idleHost : Host :=
  {| storage := ∅; clock := 1700000000000;
     getStorageFault := None; setStorageFault := None; removeStorageFault := None;
     userProfile := Return (VObject [("userInfo", sampleProfile)]);
     latency := 250; trace := [] |}.

Definition withUserProfile (o : Outcome JsValue) (h : Host) : Host :=
  {| storage := storage h; clock := clock h;
     getStorageFault := getStorageFault h; setStorageFault := setStorageFault h;
     removeStorageFault := removeStorageFault h;
     userProfile := o; latency := latency h; trace := trace h |}.

Definition withFaults (g s r : option JsValue) (h : Host) : Host :=
  {| storage := storage h; clock := clock h;
     getStorageFault := g; setStorageFault := s; removeStorageFault := r;
     userProfile := userProfile h; latency := latency h; trace := trace h |}.

(** A profile with a field that is [undefined]. *)
Definition sparseProfile : JsValue :=
  VObject [("nickName", VString "A"); ("avatarUrl", VUndefined)].

(** The error of a user who declines the request for the profile. *)
Definition denied : JsValue :=
  VObject [("errMsg", VString "getUserProfile:fail auth deny")].

(** The text of the record of a profile, as the reference runtime
    serializes it. *)
Definition recordText (userInfo : JsValue) (timestamp : Z) : JsValue :=
  VString (RefJson.printValue (cacheRecord userInfo timestamp)).

Definition sampleText : JsValue := recordText sampleProfile 1700000000000.

(** The host after [sampleProfile] has been written at 1700000000000. *)
Definition writtenHost : Host :=
  snd (setCachedUserInfo (js := refRuntime) userInfoManager sampleProfile idleHost).

(** A record written at time 0 and a clock one millisecond past its
    expiry; the user declines the request. *)
Definition staleHost : Host :=
  {| storage := {[ "user_info_cache" := recordText (VObject [("name", VString "A")]) 0 ]};
     clock := 86400001;
     getStorageFault := None; setStorageFault := None; removeStorageFault := None;
     userProfile := Throw denied;
     latency := 250; trace := [] |}.

(** A fresh record behind a storage whose read throws. *)
Definition unreadableHost : Host :=
  withFaults (Some (VObject [("errMsg", VString "getStorageSync:fail")])) None None
    (withClock 1700000000500 writtenHost).

(** A stored text that is no JSON. *)
Definition corruptHost : Host :=
  withStorage {[ "user_info_cache" := VString "{oops" ]} idleHost.

(** An unexpired record whose [data] is 0. *)
Definition zeroHost : Host :=
  withStorage {[ "user_info_cache" := recordText (VNumber (Int 0)) 1700000000000 ]}
    (withClock 1700000000500 idleHost).

(** ** Observations on the host *)

Definition isFetch (ev : Event) : bool :=
  match ev with GetUserProfile _ => true | _ => false end.

Definition isStorageRead (ev : Event) : bool :=
  match ev with GetStorageSync _ => true | _ => false end.

(** The calls that change the storage: a write or a removal. *)
Definition isStorageWrite (ev : Event) : bool :=
  match ev with SetStorageSync _ _ | RemoveStorageSync _ => true | _ => false end.

Fixpoint countEvents (p : Event -> bool) (evs : list Event) : nat :=
  match evs with
  | [] => O
  | ev :: rest => if p ev then S (countEvents p rest) else countEvents p rest
  end.

(** How often the collaborators have been called so far. *)
Definition fetchCalls (h : Host) : nat := countEvents isFetch (trace h).
Definition storageReads (h : Host) : nat := countEvents isStorageRead (trace h).
Definition storageWrites (h : Host) : nat := countEvents isStorageWrite (trace h).

(** The record of [userInfo] written at [timestamp] is serialized as
    [text], and JSON reads [text] back: it is not empty, and parsing it gives
    an object with the same [timestamp] and with [data] as its data. *)
Definition ReadsBack {js : JsRuntime} (userInfo : JsValue) (timestamp : Z)
    (text data : JsValue) : Prop :=
  JSON_stringify (cacheRecord userInfo timestamp) = Return text /\
  truthy text = true /\
  exists cache,
    JSON_parse text = Return cache /\
    getProp cache "data" = Return data /\
    getProp cache "timestamp" = Return (VNumber (Int timestamp)).

(** JSON represents [userInfo]: the data read back is [userInfo] itself. *)
Definition Serializes {js : JsRuntime} (userInfo : JsValue) (timestamp : Z)
    (text : JsValue) : Prop :=
  ReadsBack userInfo timestamp text userInfo.

(** The storage of [h] holds, under the key of [this], a readable record
    with the given [data], stamped at [stamp] (the numeric value of its
    [timestamp]). *)
Definition HoldsRecord {js : JsRuntime} (this : UserInfoManager) (h : Host)
    (data : JsValue) (stamp : Z) : Prop :=
  getStorageFault h = None /\
  exists text cache timestamp,
    storage h !! cacheKey this = Some text /\
    truthy text = true /\
    JSON_parse text = Return cache /\
    getProp cache "timestamp" = Return timestamp /\
    ToNumber timestamp = Return (Int stamp) /\
    getProp cache "data" = Return data.

(** The part of the host that the module never changes. *)
Definition sameSurroundings (h h' : Host) : Prop :=
  getStorageFault h' = getStorageFault h /\
  setStorageFault h' = setStorageFault h /\
  removeStorageFault h' = removeStorageFault h /\
  userProfile h' = userProfile h /\
  latency h' = latency h.

(** *** Finer counts, and more hosts to compute with *)

Definition isSetStorage (ev : Event) : bool :=
  match ev with SetStorageSync _ _ => true | _ => false end.

Definition isRemoveStorage (ev : Event) : bool :=
  match ev with RemoveStorageSync _ => true | _ => false end.

Definition storageSets (h : Host) : nat := countEvents isSetStorage (trace h).
Definition storageRemovals (h : Host) : nat := countEvents isRemoveStorage (trace h).

(** The error of a storage that is full. *)
Definition quotaExceeded : JsValue :=
  VObject [("errMsg", VString "setStorageSync:fail exceed storage max size")].

(** A device whose storage refuses every write. *)
Definition fullDiskHost : Host := withFaults None (Some quotaExceeded) None idleHost.

(** The stale record of [staleHost] behind a storage that refuses to remove. *)
Definition stuckHost : Host :=
  withFaults None None (Some (VObject [("errMsg", VString "removeStorageSync:fail")]))
    staleHost.

(** A stored object that has data and no [timestamp]. *)
Definition unstampedHost : Host :=
  withStorage
    {[ "user_info_cache" := VString (RefJson.printValue (VObject [("data", sampleProfile)])) ]}
    idleHost.

(** The stored text [null]. *)
Definition nullTextHost : Host :=
  withStorage {[ "user_info_cache" := VString "null" ]} idleHost.

(** The record of [sampleProfile] beside an entry of another module. *)
Definition sharedHost : Host :=
  withStorage (<[ "theme" := VString "dark" ]> (storage writtenHost))
    (withClock 1700000000500 idleHost).

(** * Properties *)

Ltac unfold_methods :=
  unfold getUserInfo, getCachedUserInfo, setCachedUserInfo, clearCachedUserInfo,
    reportError, tryCatch, bind, lift, ret, console, Date_now,
    wx_getStorageSync, wx_setStorageSync, wx_removeStorageSync, wx_getUserProfile,
    fetchCalls, storageReads, storageWrites in *.

Ltac innermost x :=
  lazymatch x with
  | context [match _ with _ => _ end] => fail
  | _ => idtac
  end.

Ltac crunch :=
  repeat (simpl in *;
          match goal with
          | H : ?x = _ |- context [match ?x with _ => _ end] => rewrite H
          | |- context [match ?x with _ => _ end] => innermost x; destruct x eqn:?
          end);
  simpl in *.

Section CacheRead.
Context {js : JsRuntime}.
Variable this : UserInfoManager.

(** Reading a record that is younger than the expiry time yields its data
    and only calls [wx.getStorageSync]. *)
Lemma getCachedUserInfo_fresh (h : Host) (data : JsValue) (stamp : Z) :
  HoldsRecord this h data stamp ->
  clock h - stamp < CACHE_EXPIRE this ->
  getCachedUserInfo this h = (Return data, emit (GetStorageSync (cacheKey this)) h).
Proof.
  intros (Hget & text & cache & ts & Hst & Htr & Hparse & Hts & Hnum & Hdata) Hage.
  unfold_methods. rewrite Hget, Hst. simpl. rewrite Htr. simpl.
  rewrite Hparse, Hts. unfold jsSub. simpl. rewrite Hnum. simpl.
  apply Z.ltb_lt in Hage. rewrite Hage, Hdata. reflexivity.
Qed.
End CacheRead.

Section CacheOperations.
Context {js : JsRuntime}.
Variable this : UserInfoManager.

Lemma clearCachedUserInfo_returns (h : Host) :
  fst (clearCachedUserInfo this h) = Return tt.
Proof. unfold_methods. crunch; reflexivity. Qed.

Lemma clearCachedUserInfo_storage (h : Host) :
  storage (snd (clearCachedUserInfo this h)) =
    match removeStorageFault h with
    | None => delete (cacheKey this) (storage h)
    | Some _ => storage h
    end.
Proof. unfold_methods. crunch; reflexivity. Qed.

Lemma setCachedUserInfo_returns (userInfo : JsValue) (h : Host) :
  fst (setCachedUserInfo this userInfo h) = Return tt.
Proof. unfold_methods. crunch; reflexivity. Qed.

Lemma setCachedUserInfo_storage (userInfo : JsValue) (h : Host) :
  storage (snd (setCachedUserInfo this userInfo h)) =
    match JSON_stringify (cacheRecord userInfo (clock h)), setStorageFault h with
    | Return text, None => <[cacheKey this := text]> (storage h)
    | _, _ => storage h
    end.
Proof. unfold_methods. unfold cacheRecord. crunch; reflexivity. Qed.

Lemma getCachedUserInfo_returns (h : Host) :
  exists v, fst (getCachedUserInfo this h) = Return v.
Proof. unfold_methods. crunch; eauto. Qed.

Lemma getCachedUserInfo_surroundings (h : Host) :
  sameSurroundings h (snd (getCachedUserInfo this h)) /\
  clock (snd (getCachedUserInfo this h)) = clock h /\
  fetchCalls (snd (getCachedUserInfo this h)) = fetchCalls h.
Proof. unfold sameSurroundings. unfold_methods. crunch; auto 10. Qed.

(** A read never creates a record: it leaves the storage alone or removes
    the record. *)
Lemma getCachedUserInfo_storage (h : Host) :
  storage (snd (getCachedUserInfo this h)) = storage h \/
  storage (snd (getCachedUserInfo this h)) = delete (cacheKey this) (storage h).
Proof. unfold_methods. crunch; auto. Qed.

(** A read that yields a value the caller can use has changed nothing. *)
Lemma getCachedUserInfo_hit_frame (h : Host) (v : JsValue) :
  fst (getCachedUserInfo this h) = Return v ->
  truthy v = true ->
  storage (snd (getCachedUserInfo this h)) = storage h /\
  storageWrites (snd (getCachedUserInfo this h)) = storageWrites h.
Proof.
  unfold_methods. crunch; intros Hv Ht; auto;
    inversion Hv; subst; discriminate.
Qed.
End CacheOperations.

Section GetUserInfo.
Context {js : JsRuntime}.
Variable this : UserInfoManager.

Lemma getCachedUserInfo_expired (h : Host) (data : JsValue) (stamp : Z) :
  HoldsRecord this h data stamp ->
  clock h - stamp >= CACHE_EXPIRE this ->
  fst (getCachedUserInfo this h) = Return VNull /\
  storage (snd (getCachedUserInfo this h)) =
    match removeStorageFault h with
    | None => delete (cacheKey this) (storage h)
    | Some _ => storage h
    end.
Proof.
  intros (Hget & text & cache & ts & Hst & Htr & Hparse & Hts & Hnum & Hdata) Hage.
  assert (Hlt : (clock h - stamp <? CACHE_EXPIRE this) = false)
    by (apply Z.ltb_ge; lia).
  unfold_methods. rewrite Hget, Hst. simpl. rewrite Htr. simpl.
  rewrite Hparse, Hts. unfold jsSub. simpl. rewrite Hnum. simpl.
  rewrite Hlt. simpl. destruct (removeStorageFault h); simpl; auto.
Qed.

(** A usable cached value is returned as it is, and nothing else happens
    but a line on the console. *)
Lemma getUserInfo_hit (h : Host) (v : JsValue) :
  fst (getCachedUserInfo this h) = Return v ->
  truthy v = true ->
  fst (getUserInfo this false h) = Return v /\
  storage (snd (getUserInfo this false h)) = storage (snd (getCachedUserInfo this h)) /\
  fetchCalls (snd (getUserInfo this false h)) = fetchCalls (snd (getCachedUserInfo this h)) /\
  storageWrites (snd (getUserInfo this false h)) =
    storageWrites (snd (getCachedUserInfo this h)).
Proof.
  intros Hv Ht. unfold getUserInfo, bind, ret, console. simpl.
  destruct (getCachedUserInfo this h) as [o h1]. simpl in *. subst o.
  rewrite Ht. simpl. auto.
Qed.

(** Without a usable cached value the call goes on as a forced refresh
    does, from the host the read has left. *)
Lemma getUserInfo_miss (h : Host) (v : JsValue) :
  fst (getCachedUserInfo this h) = Return v ->
  truthy v = false ->
  getUserInfo this false h = getUserInfo this true (snd (getCachedUserInfo this h)).
Proof.
  intros Hv Ht. unfold getUserInfo, bind, ret. simpl.
  destruct (getCachedUserInfo this h) as [o h1]. simpl in *. subst o.
  rewrite Ht. reflexivity.
Qed.

(** A forced refresh calls the profile source once and never reads the
    storage. *)
Lemma getUserInfo_force_calls (h : Host) :
  fetchCalls (snd (getUserInfo this true h)) = S (fetchCalls h) /\
  storageReads (snd (getUserInfo this true h)) = storageReads h.
Proof. unfold_methods. crunch; auto. Qed.

(** The outcome of a forced refresh depends on the profile source alone. *)
Lemma getUserInfo_force_result (h h' : Host) :
  userProfile h' = userProfile h ->
  fst (getUserInfo this true h') = fst (getUserInfo this true h).
Proof. intros Hp. unfold_methods. simpl. rewrite Hp. crunch; auto. Qed.

(** A fetch that fails with an error object: [null], two lines on the
    console, the storage untouched. *)
Lemma getUserInfo_force_failure (h : Host) (e : JsValue) :
  userProfile h = Throw e ->
  e <> VUndefined -> e <> VNull ->
  fst (getUserInfo this true h) = Return VNull /\
  storage (snd (getUserInfo this true h)) = storage h /\
  storageWrites (snd (getUserInfo this true h)) = storageWrites h /\
  exists options line1 line2 message stack,
    getProp e "message" = Return message /\
    getProp e "stack" = Return stack /\
    trace (snd (getUserInfo this true h)) =
      Console Warn [line2; VObject [("action", VString "getUserInfo");
                                    ("message", message); ("stack", stack)]]
      :: Console Error [line1; e]
      :: GetUserProfile options
      :: trace h.
Proof.
  intros Hp Hu Hn. unfold_methods. simpl. rewrite Hp. simpl.
  destruct e; try congruence; simpl; repeat split; eauto 10.
Qed.
End GetUserInfo.

(** ** The cache of the exported instance *)

Section ExportedInstance.
Context {js : JsRuntime}.

Local Abbreviation key := (cacheKey userInfoManager).

(** What a write that goes through leaves in the storage. *)
Lemma written_holds (P text data : JsValue) (h h' : Host) :
  ReadsBack P (clock h) text data ->
  setStorageFault h = None ->
  storage h' = storage (snd (setCachedUserInfo userInfoManager P h)) ->
  getStorageFault h' = None ->
  storage h' = <[key := text]> (storage h) /\
  HoldsRecord userInfoManager h' data (clock h).
Proof.
  intros (Hs & Ht & cache & Hp & Hd & Hts) Hset Hst Hget.
  rewrite setCachedUserInfo_storage, Hs, Hset in Hst.
  split; [exact Hst |].
  split; [exact Hget |].
  exists text, cache, (VNumber (Int (clock h))).
  rewrite Hst, lookup_insert_eq. auto 10.
Qed.

(** C1, as the code has it. Round trip within the expiry time: a profile
    [P] that JSON represents, written by [setCachedUserInfo] at time
    [clock h], is returned unchanged by [getCachedUserInfo] at any time
    [clock h'] less than 86,400,000 ms later, and the read leaves the record
    in place. *)
Theorem roundtrip_within_ttl (P text : JsValue) (h h' : Host) :
  Serializes P (clock h) text ->
  setStorageFault h = None ->
  storage h' = storage (snd (setCachedUserInfo userInfoManager P h)) ->
  getStorageFault h' = None ->
  clock h' - clock h < 86400000 ->
  fst (getCachedUserInfo userInfoManager h') = Return P /\
  storage (snd (getCachedUserInfo userInfoManager h')) = storage h'.
Proof.
  intros Hser Hset Hst Hget Hage.
  destruct (written_holds P text P h h' Hser Hset Hst Hget) as [_ Hrec].
  rewrite (getCachedUserInfo_fresh userInfoManager h' P (clock h) Hrec Hage).
  auto.
Qed.

(** C2. Eviction on expiry: a profile written at time [clock h] and read
    at a time [clock h'] at least 86,400,000 ms later is absent ([null]),
    and after the read the storage has no record under the cache key.
    The boundary is strict: the read keeps the record exactly when
    [clock h' - clock h < 86400000]. *)
Theorem eviction_on_expiry (P text data : JsValue) (h h' : Host) :
  ReadsBack P (clock h) text data ->
  setStorageFault h = None ->
  storage h' = storage (snd (setCachedUserInfo userInfoManager P h)) ->
  getStorageFault h' = None ->
  removeStorageFault h' = None ->
  (clock h' - clock h >= 86400000 ->
   fst (getCachedUserInfo userInfoManager h') = Return VNull /\
   storage (snd (getCachedUserInfo userInfoManager h')) !! key = None) /\
  (storage (snd (getCachedUserInfo userInfoManager h')) !! key = Some text <->
   clock h' - clock h < 86400000).
Proof.
  intros Hser Hset Hst Hget Hrem.
  destruct (written_holds P text data h h' Hser Hset Hst Hget) as [Hins Hrec].
  assert (Hexp : clock h' - clock h >= 86400000 ->
                 fst (getCachedUserInfo userInfoManager h') = Return VNull /\
                 storage (snd (getCachedUserInfo userInfoManager h')) !! key = None).
  { intros Hage.
    destruct (getCachedUserInfo_expired userInfoManager h' data (clock h) Hrec Hage)
      as [Hres Hsto].
    rewrite Hrem in Hsto. rewrite Hsto, lookup_delete_eq. auto. }
  split; [exact Hexp |].
  split.
  - intros Hkept.
    destruct (Z_lt_ge_dec (clock h' - clock h) 86400000) as [Hlt | Hge]; [exact Hlt |].
    destruct (Hexp Hge) as [_ Hnone]. congruence.
  - intros Hage.
    rewrite (getCachedUserInfo_fresh userInfoManager h' data (clock h) Hrec Hage).
    simpl. rewrite Hins. apply lookup_insert_eq.
Qed.

(** C6. Fail-open on corruption: when the stored string does not parse,
    [getCachedUserInfo] returns [null] as it does when no record is stored,
    it does not throw and leaves the storage alone; [getUserInfo] then
    calls the profile source, and resolves as it does without a record. *)
Theorem corrupt_record_is_absent (h : Host) (s : string) (e : JsValue) :
  storage h !! key = Some (VString s) ->
  JSON_parse (VString s) = Throw e ->
  let absent := withStorage (delete key (storage h)) h in
  fst (getCachedUserInfo userInfoManager h) = Return VNull /\
  fst (getCachedUserInfo userInfoManager absent) = Return VNull /\
  storage (snd (getCachedUserInfo userInfoManager h)) = storage h /\
  fetchCalls (snd (getUserInfo userInfoManager false h)) = S (fetchCalls h) /\
  fst (getUserInfo userInfoManager false h) =
    fst (getUserInfo userInfoManager false absent).
Proof.
  intros Hst Hparse absent.
  assert (Hcorrupt : fst (getCachedUserInfo userInfoManager h) = Return VNull /\
                     storage (snd (getCachedUserInfo userInfoManager h)) = storage h).
  { unfold_methods. simpl in *. rewrite Hst. simpl.
    destruct (getStorageFault h); simpl; [auto |].
    destruct (negb (s =? "")%string); simpl; [| auto].
    rewrite Hparse. simpl. auto. }
  assert (Habsent : fst (getCachedUserInfo userInfoManager absent) = Return VNull).
  { unfold_methods. simpl. rewrite lookup_delete_eq. simpl.
    destruct (getStorageFault h); reflexivity. }
  destruct Hcorrupt as [Hres Hsto].
  repeat split; auto.
  - rewrite (getUserInfo_miss userInfoManager h VNull Hres eq_refl).
    destruct (getUserInfo_force_calls userInfoManager
                (snd (getCachedUserInfo userInfoManager h))) as [-> _].
    destruct (getCachedUserInfo_surroundings userInfoManager h) as (_ & _ & ->).
    reflexivity.
  - rewrite (getUserInfo_miss userInfoManager h VNull Hres eq_refl).
    rewrite (getUserInfo_miss userInfoManager absent VNull Habsent eq_refl).
    apply getUserInfo_force_result.
    destruct (getCachedUserInfo_surroundings userInfoManager h) as ((_ & _ & _ & -> & _) & _).
    destruct (getCachedUserInfo_surroundings userInfoManager absent)
      as ((_ & _ & _ & -> & _) & _).
    reflexivity.
Qed.

(** C8, as the code has it. Cache-hit frame: when [forceRefresh] is false
    and [getCachedUserInfo] yields a truthy value, one that passes the test
    of [if (cachedInfo)], [getUserInfo] returns that value, does not call
    the profile source and makes no storage write: the storage is
    unchanged. *)
Theorem cache_hit_frame (h : Host) (v : JsValue) :
  fst (getCachedUserInfo userInfoManager h) = Return v ->
  truthy v = true ->
  fst (getUserInfo userInfoManager false h) = Return v /\
  fetchCalls (snd (getUserInfo userInfoManager false h)) = fetchCalls h /\
  storageWrites (snd (getUserInfo userInfoManager false h)) = storageWrites h /\
  storage (snd (getUserInfo userInfoManager false h)) = storage h.
Proof.
  intros Hv Ht.
  destruct (getUserInfo_hit userInfoManager h v Hv Ht) as (Hres & Hsto & Hf & Hw).
  destruct (getCachedUserInfo_hit_frame userInfoManager h v Hv Ht) as [Hsto' Hw'].
  destruct (getCachedUserInfo_surroundings userInfoManager h) as (_ & _ & Hf').
  repeat split; congruence.
Qed.

(** C10. Falsy profile: when the stored record is unexpired but its
    [data] is falsy ([null], [0], the empty string, [false] or
    [undefined]), [getCachedUserInfo] yields that data, the test of
    [getUserInfo(false)] on it fails, and the profile source is called
    although a valid record exists. *)
Theorem falsy_profile_refetches (h : Host) (data : JsValue) (stamp : Z) :
  HoldsRecord userInfoManager h data stamp ->
  clock h - stamp < 86400000 ->
  In data [VNull; VNumber (Int 0); VString ""; VBool false; VUndefined] ->
  fst (getCachedUserInfo userInfoManager h) = Return data /\
  truthy data = false /\
  fetchCalls (snd (getUserInfo userInfoManager false h)) = S (fetchCalls h).
Proof.
  intros Hrec Hage Hin.
  assert (Hf : truthy data = false).
  { simpl in Hin. decompose [or] Hin; subst; try reflexivity. contradiction. }
  pose proof (getCachedUserInfo_fresh userInfoManager h data stamp Hrec Hage) as Hrun.
  assert (Hres : fst (getCachedUserInfo userInfoManager h) = Return data)
    by (rewrite Hrun; reflexivity).
  repeat split; auto.
  rewrite (getUserInfo_miss userInfoManager h data Hres Hf).
  destruct (getUserInfo_force_calls userInfoManager
              (snd (getCachedUserInfo userInfoManager h))) as [-> _].
  destruct (getCachedUserInfo_surroundings userInfoManager h) as (_ & _ & ->).
  reflexivity.
Qed.
(** Every failure but one is absorbed: unless the profile source rejects
    with [undefined] or [null], [getUserInfo] resolves. *)
Lemma getUserInfo_resolves (h : Host) (forceRefresh : bool) :
  userProfile h <> Throw VUndefined ->
  userProfile h <> Throw VNull ->
  exists v, fst (getUserInfo userInfoManager forceRefresh h) = Return v.
Proof.
  intros Hu Hn.
  assert (Hforce : forall h', userProfile h' = userProfile h ->
                     exists v, fst (getUserInfo userInfoManager true h') = Return v).
  { intros h' Hp. unfold_methods. simpl. rewrite Hp.
    destruct (userProfile h) as [res | e]; simpl.
    - destruct res; simpl; crunch; eauto.
    - destruct e; simpl; try congruence; eauto. }
  destruct forceRefresh; [apply Hforce; reflexivity |].
  destruct (getCachedUserInfo_returns userInfoManager h) as [v Hv].
  destruct (truthy v) eqn:Ht.
  - exists v. apply (getUserInfo_hit userInfoManager h v Hv Ht).
  - rewrite (getUserInfo_miss userInfoManager h v Hv Ht). apply Hforce.
    apply (getCachedUserInfo_surroundings userInfoManager h).
Qed.

(** C4, as the code has it. When the profile source is called and rejects
    or throws with a value other than [undefined] and [null],
    [getUserInfo] resolves to [null], the error goes to [console.error]
    and, through [reportError], to [console.warn], and nothing is written:
    the storage is as the cache read before the fetch has left it, which
    is as it was before the call or, when the read has met an expired
    record, without that record. *)
Theorem fetch_failure_writes_nothing (h : Host) (forceRefresh : bool) (e : JsValue) :
  userProfile h = Throw e ->
  e <> VUndefined -> e <> VNull ->
  fetchCalls (snd (getUserInfo userInfoManager forceRefresh h)) <> fetchCalls h ->
  let read := if forceRefresh then h else snd (getCachedUserInfo userInfoManager h) in
  let final := snd (getUserInfo userInfoManager forceRefresh h) in
  fst (getUserInfo userInfoManager forceRefresh h) = Return VNull /\
  (exists options line1 line2 message stack,
      getProp e "message" = Return message /\
      getProp e "stack" = Return stack /\
      trace final =
        Console Warn [line2; VObject [("action", VString "getUserInfo");
                                      ("message", message); ("stack", stack)]]
        :: Console Error [line1; e]
        :: GetUserProfile options
        :: trace read) /\
  storage final = storage read /\
  storageWrites final = storageWrites read /\
  (forceRefresh = true -> storage final = storage h) /\
  (storage final = storage h \/ storage final = delete key (storage h)).
Proof.
  intros Hp Hu Hn Hcalled read final.
  assert (Hread : getUserInfo userInfoManager forceRefresh h =
                  getUserInfo userInfoManager true read /\
                  userProfile read = Throw e /\
                  (storage read = storage h \/
                   storage read = delete key (storage h))).
  { subst read. destruct forceRefresh; [auto |].
    destruct (getCachedUserInfo_returns userInfoManager h) as [v Hv].
    destruct (truthy v) eqn:Ht.
    - exfalso. apply Hcalled.
      destruct (getUserInfo_hit userInfoManager h v Hv Ht) as (_ & _ & -> & _).
      apply (getCachedUserInfo_surroundings userInfoManager h).
    - split; [apply (getUserInfo_miss userInfoManager h v Hv Ht) |].
      split; [| apply getCachedUserInfo_storage].
      destruct (getCachedUserInfo_surroundings userInfoManager h)
        as ((_ & _ & _ & -> & _) & _).
      exact Hp. }
  destruct Hread as (Heq & Hp' & Hsto).
  subst final. rewrite Heq.
  destruct (getUserInfo_force_failure userInfoManager read e Hp' Hu Hn)
    as (Hres & Hst & Hw & Htrace).
  repeat split; auto.
  - intros ->. rewrite Hst. reflexivity.
  - rewrite Hst. exact Hsto.
Qed.

(** C5. Force-refresh bypass: whatever the storage holds,
    [getUserInfo(true)] resolves as it does on any other storage, it calls
    the profile source, once, and does not read the storage; when the
    fetch succeeds and the write goes through, the stored record is
    replaced by the record of the fetched profile, stamped with the time
    at which the fetch has settled. *)
Theorem force_refresh_bypasses_cache (h : Host) :
  (forall m : gmap string JsValue,
      fst (getUserInfo userInfoManager true (withStorage m h)) =
      fst (getUserInfo userInfoManager true h)) /\
  fetchCalls (snd (getUserInfo userInfoManager true h)) = S (fetchCalls h) /\
  storageReads (snd (getUserInfo userInfoManager true h)) = storageReads h /\
  (forall res P text : JsValue,
      userProfile h = Return res ->
      getProp res "userInfo" = Return P ->
      JSON_stringify (cacheRecord P (clock h + latency h)) = Return text ->
      setStorageFault h = None ->
      fst (getUserInfo userInfoManager true h) = Return P /\
      storage (snd (getUserInfo userInfoManager true h)) = <[key := text]> (storage h)).
Proof.
  split; [intros m; apply getUserInfo_force_result; reflexivity |].
  destruct (getUserInfo_force_calls userInfoManager h) as [Hf Hr].
  split; [exact Hf |]. split; [exact Hr |].
  intros res P text Hp Hinfo Hser Hset.
  unfold_methods. unfold cacheRecord in Hser. simpl in *.
  rewrite Hp. simpl. rewrite Hinfo. simpl. rewrite Hser. simpl.
  rewrite Hset. simpl. auto.
Qed.
(** C7, as the code has it. The transitions of the record under the
    cache key.  Absent to present: only by [setCachedUserInfo], and only
    when the serialization and the storage write succeed; a read or an
    evict never creates a record.  Present to absent: only by a removal
    that succeeds, made by [clearCachedUserInfo] or by a read that has
    loaded and parsed the record and found it expired; a write never
    removes the record.  A read that fails (the storage primitive throws,
    or the stored text does not parse) returns [null] and leaves the
    storage as it was. *)
Theorem record_transitions (h : Host) (P : JsValue) :
  (storage h !! key = None ->
   storage (snd (getCachedUserInfo userInfoManager h)) !! key = None /\
   storage (snd (clearCachedUserInfo userInfoManager h)) !! key = None /\
   (storage (snd (setCachedUserInfo userInfoManager P h)) !! key <> None ->
    exists text,
      JSON_stringify (cacheRecord P (clock h)) = Return text /\
      setStorageFault h = None)) /\
  (forall text,
      JSON_stringify (cacheRecord P (clock h)) = Return text ->
      setStorageFault h = None ->
      storage (snd (setCachedUserInfo userInfoManager P h)) !! key = Some text) /\
  (forall stored,
      storage h !! key = Some stored ->
      storage (snd (setCachedUserInfo userInfoManager P h)) !! key <> None /\
      (storage (snd (clearCachedUserInfo userInfoManager h)) !! key = None <->
       removeStorageFault h = None) /\
      (storage (snd (getCachedUserInfo userInfoManager h)) !! key = None ->
       getStorageFault h = None /\
       removeStorageFault h = None /\
       exists cache timestamp age,
         JSON_parse stored = Return cache /\
         getProp cache "timestamp" = Return timestamp /\
         jsSub (VNumber (Int (clock h))) timestamp = Return age /\
         numLt age (Int 86400000) = false) /\
      (getStorageFault h <> None \/ (exists e, JSON_parse stored = Throw e) ->
       fst (getCachedUserInfo userInfoManager h) = Return VNull /\
       storage (snd (getCachedUserInfo userInfoManager h)) = storage h)).
Proof.
  split; [| split].
  - intros Habsent. split; [| split].
    + destruct (getCachedUserInfo_storage userInfoManager h) as [-> | ->];
        [exact Habsent | apply lookup_delete_eq].
    + rewrite clearCachedUserInfo_storage.
      destruct (removeStorageFault h); [exact Habsent | apply lookup_delete_eq].
    + rewrite setCachedUserInfo_storage.
      destruct (JSON_stringify (cacheRecord P (clock h))) as [text |];
        [| congruence].
      destruct (setStorageFault h); [congruence |]. eauto.
  - intros text Hser Hset.
    rewrite setCachedUserInfo_storage, Hser, Hset. apply lookup_insert_eq.
  - intros stored Hstored. split; [| split; [| split]].
    + rewrite setCachedUserInfo_storage.
      destruct (JSON_stringify (cacheRecord P (clock h))) as [text |];
        [| congruence].
      destruct (setStorageFault h); [congruence |].
      rewrite lookup_insert_eq. discriminate.
    + rewrite clearCachedUserInfo_storage.
      destruct (removeStorageFault h).
      * split; [congruence | discriminate].
      * split; [reflexivity | intros _; apply lookup_delete_eq].
    + unfold_methods. simpl in *. rewrite Hstored. simpl.
      destruct (getStorageFault h); simpl; [congruence |].
      destruct (truthy stored); simpl; [| congruence].
      destruct (JSON_parse stored) as [cache |]; simpl; [| congruence].
      destruct (getProp cache "timestamp") as [timestamp |] eqn:Hts;
        simpl; [| congruence].
      destruct (jsSub (VNumber (Int (clock h))) timestamp) as [age |] eqn:Hage;
        simpl; [| congruence].
      destruct (numLt age (Int 86400000)) eqn:Hlt; simpl.
      * destruct (getProp cache "data"); simpl; congruence.
      * destruct (removeStorageFault h); simpl; [congruence |].
        intros _. repeat split. exists cache, timestamp, age. auto.
    + intros Hfail. unfold_methods. simpl in *. rewrite Hstored. simpl.
      destruct (getStorageFault h); simpl; [auto |].
      destruct Hfail as [Hfault | [e He]]; [congruence |].
      destruct (truthy stored); simpl; [| auto].
      rewrite He. simpl. auto.
Qed.
End ExportedInstance.

(** ** The singleton *)

Module SingletonFacts.
Import Singleton.

(** Once the static field is set, [new] yields the object it names and
    leaves that object as it is. *)
Lemma new_after_first (r : Realm) (first : nat) (fields : UserInfoManager) :
  instance r = Some first ->
  (first < nextRef r)%nat ->
  fieldsOf r first = Some fields ->
  fst (new_UserInfoManager r) = first /\
  instance (snd (new_UserInfoManager r)) = Some first /\
  (first < nextRef (snd (new_UserInfoManager r)))%nat /\
  fieldsOf (snd (new_UserInfoManager r)) first = Some fields.
Proof.
  intros Hi Hlt Hf. unfold new_UserInfoManager. rewrite Hi. simpl.
  repeat split; [lia |].
  unfold fieldsOf in *. simpl.
  rewrite lookup_insert_ne; [exact Hf | lia].
Qed.

Lemma construct_after_first (n : nat) :
  forall (r : Realm) (first : nat) (fields : UserInfoManager),
    instance r = Some first ->
    (first < nextRef r)%nat ->
    fieldsOf r first = Some fields ->
    Forall (fun ref => ref = first) (fst (construct n r)) /\
    length (fst (construct n r)) = n /\
    instance (snd (construct n r)) = Some first /\
    fieldsOf (snd (construct n r)) first = Some fields.
Proof.
  induction n as [| n IH]; intros r first fields Hi Hlt Hf; simpl.
  - auto.
  - destruct (new_after_first r first fields Hi Hlt Hf) as (Hfst & Hi' & Hlt' & Hf').
    destruct (new_UserInfoManager r) as [ref r'] eqn:Hnew. simpl in *.
    destruct (IH r' first fields Hi' Hlt' Hf') as (Hall & Hlen & Hi'' & Hf'').
    destruct (construct n r') as [refs r''] eqn:Hrest. simpl in *.
    repeat split; auto.
Qed.

(** The object the module exports has the fields of [userInfoManager]. *)
Lemma moduleLoad_exports :
  fieldsOf (snd moduleLoad) (fst moduleLoad) = Some userInfoManager /\
  instance (snd moduleLoad) = Some (fst moduleLoad).
Proof. split; reflexivity. Qed.

(** C9. Singleton: the module evaluates [new UserInfoManager()] first
    and exports the result; each of any [n] later evaluations yields that
    very object, whose cache key is ['user_info_cache'] and whose expiry
    time is 86,400,000, and the static field keeps naming it. *)
Theorem singleton_instance (n : nat) :
  let exported := fst moduleLoad in
  let later := construct n (snd moduleLoad) in
  Forall (fun ref => ref = exported) (fst later) /\
  length (fst later) = n /\
  instance (snd later) = Some exported /\
  fieldsOf (snd later) exported =
    Some {| CACHE_EXPIRE := 86400000; cacheKey := "user_info_cache" |}.
Proof.
  intros exported later.
  destruct moduleLoad_exports as [Hf Hi].
  apply (construct_after_first n (snd moduleLoad) exported userInfoManager Hi);
    [| exact Hf].
  subst exported. simpl. lia.
Qed.
End SingletonFacts.

(** ** The properties at work *)

Lemma sampleText_serializes :
  Serializes (js := refRuntime) sampleProfile (clock idleHost) sampleText.
Proof.
  unfold Serializes, ReadsBack. split; [reflexivity |]. split; [reflexivity |].
  eexists. split; [vm_compute; reflexivity |]. split; reflexivity.
Qed.

(** The scenario of the specification: a write at 0, a read at 500 that
    returns the profile, a read at 86,400,001 that returns [null] and leaves
    no record. *)
Example scenario :
  let written :=
    snd (setCachedUserInfo (js := refRuntime) userInfoManager
           (VObject [("name", VString "A")]) (withClock 0 idleHost)) in
  fst (getCachedUserInfo userInfoManager (withClock 500 written)) =
    Return (VObject [("name", VString "A")]) /\
  fst (getCachedUserInfo userInfoManager (withClock 86400001 written)) = Return VNull /\
  storage (snd (getCachedUserInfo userInfoManager (withClock 86400001 written)))
    !! "user_info_cache" = None.
Proof. vm_compute. auto. Qed.

Lemma roundtrip_within_ttl_witness :
  Serializes (js := refRuntime) sampleProfile (clock idleHost) sampleText /\
  clock (withClock 1700086399999 writtenHost) - clock idleHost < 86400000 /\
  fst (getCachedUserInfo userInfoManager (withClock 1700086399999 writtenHost)) =
    Return sampleProfile /\
  storage (snd (getCachedUserInfo userInfoManager (withClock 1700086399999 writtenHost))) =
    storage (withClock 1700086399999 writtenHost).
Proof.
  split; [exact sampleText_serializes |].
  split; [vm_compute; reflexivity |].
  apply (roundtrip_within_ttl (js := refRuntime) sampleProfile sampleText idleHost
           (withClock 1700086399999 writtenHost)).
  - exact sampleText_serializes.
  - reflexivity.
  - reflexivity.
  - reflexivity.
  - vm_compute. reflexivity.
Defined.

(** C1, as stated, fails on [sparseProfile]: JSON drops the field that is
    [undefined], and the read half a second after the write yields an
    object without it. *)
Lemma sparse_profile_is_changed :
  let written :=
    snd (setCachedUserInfo (js := refRuntime) userInfoManager sparseProfile idleHost) in
  clock (withClock 1700000000500 written) - clock idleHost < 86400000 /\
  fst (getCachedUserInfo (js := refRuntime) userInfoManager
         (withClock 1700000000500 written)) =
    Return (VObject [("nickName", VString "A")]) /\
  Return (A := JsValue) (VObject [("nickName", VString "A")]) <> Return sparseProfile.
Proof. vm_compute. repeat split; discriminate. Qed.

Lemma eviction_on_expiry_witness :
  clock (withClock 1700086400000 writtenHost) - clock idleHost >= 86400000 /\
  fst (getCachedUserInfo userInfoManager (withClock 1700086400000 writtenHost)) =
    Return VNull /\
  storage (snd (getCachedUserInfo userInfoManager (withClock 1700086400000 writtenHost)))
    !! "user_info_cache" = None.
Proof.
  split; [vm_compute; discriminate |].
  apply (eviction_on_expiry (js := refRuntime) sampleProfile sampleText sampleProfile
           idleHost (withClock 1700086400000 writtenHost)).
  - exact sampleText_serializes.
  - reflexivity.
  - reflexivity.
  - reflexivity.
  - reflexivity.
  - vm_compute. discriminate.
Defined.

(** C3, the input on which the code fails.  The profile source rejects
    with [undefined] (or [null]): in the handler, [reportError] reads
    [error.message], the read throws a TypeError, and the promise of
    [getUserInfo] is rejected with it instead of being resolved to [null]. *)
Theorem nullish_rejection_escapes :
  fst (getUserInfo (js := refRuntime) userInfoManager true
         (withUserProfile (Throw VUndefined) idleHost)) =
    Throw (TypeError "Cannot read properties of undefined (reading 'message')") /\
  fst (getUserInfo (js := refRuntime) userInfoManager false
         (withUserProfile (Throw VUndefined) idleHost)) =
    Throw (TypeError "Cannot read properties of undefined (reading 'message')") /\
  fst (getUserInfo (js := refRuntime) userInfoManager true
         (withUserProfile (Throw VNull) idleHost)) =
    Throw (TypeError "Cannot read properties of null (reading 'message')").
Proof. vm_compute. auto. Qed.

(** The same on every host and every runtime. *)
Lemma undefined_rejection_escapes {js : JsRuntime} (h : Host) :
  userProfile h = Throw VUndefined ->
  fst (getUserInfo userInfoManager true h) =
    Throw (TypeError "Cannot read properties of undefined (reading 'message')").
Proof. intros Hp. unfold_methods. simpl. rewrite Hp. reflexivity. Qed.

(** C4, as stated, fails on [staleHost]: the fetch is made and rejected,
    the call resolves to [null], and the record that was stored before the
    call is gone after it. *)
Lemma fetch_failure_evicts_stale_record :
  userProfile staleHost = Throw denied /\
  fetchCalls staleHost = 0%nat /\
  fetchCalls (snd (getUserInfo (js := refRuntime) userInfoManager false staleHost)) = 1%nat /\
  fst (getUserInfo (js := refRuntime) userInfoManager false staleHost) = Return VNull /\
  storage staleHost !! "user_info_cache" =
    Some (recordText (VObject [("name", VString "A")]) 0) /\
  storage (snd (getUserInfo (js := refRuntime) userInfoManager false staleHost))
    !! "user_info_cache" = None.
Proof. vm_compute. auto 10. Qed.

Lemma fetch_failure_writes_nothing_witness :
  fst (getUserInfo (js := refRuntime) userInfoManager false staleHost) = Return VNull /\
  storage (snd (getUserInfo (js := refRuntime) userInfoManager false staleHost)) =
    storage (snd (getCachedUserInfo (js := refRuntime) userInfoManager staleHost)) /\
  storageWrites (snd (getUserInfo (js := refRuntime) userInfoManager false staleHost)) =
    storageWrites (snd (getCachedUserInfo (js := refRuntime) userInfoManager staleHost)).
Proof.
  assert (Hcalled : fetchCalls (snd (getUserInfo (js := refRuntime) userInfoManager false
                                       staleHost)) <> fetchCalls staleHost)
    by (vm_compute; discriminate).
  assert (Hu : denied <> VUndefined) by discriminate.
  assert (Hn : denied <> VNull) by discriminate.
  destruct (fetch_failure_writes_nothing (js := refRuntime) staleHost false denied
              eq_refl Hu Hn Hcalled) as (Hres & _ & Hsto & Hw & _).
  split; [exact Hres |]. split; [exact Hsto | exact Hw].
Defined.

Lemma force_refresh_bypasses_cache_witness :
  fst (getUserInfo (js := refRuntime) userInfoManager true writtenHost) =
    Return sampleProfile /\
  storage (snd (getUserInfo (js := refRuntime) userInfoManager true writtenHost)) =
    <[ "user_info_cache" := recordText sampleProfile 1700000000250 ]> (storage writtenHost).
Proof.
  destruct (force_refresh_bypasses_cache (js := refRuntime) writtenHost)
    as (_ & _ & _ & Hsuccess).
  apply (Hsuccess (VObject [("userInfo", sampleProfile)])); reflexivity.
Defined.

Lemma corrupt_record_is_absent_witness :
  storage corruptHost !! "user_info_cache" = Some (VString "{oops") /\
  fst (getCachedUserInfo (js := refRuntime) userInfoManager corruptHost) = Return VNull /\
  fetchCalls (snd (getUserInfo (js := refRuntime) userInfoManager false corruptHost)) =
    S (fetchCalls corruptHost).
Proof.
  split; [reflexivity |].
  destruct (corrupt_record_is_absent (js := refRuntime) corruptHost "{oops"
              (SyntaxError "Unexpected token in JSON") eq_refl eq_refl)
    as (Hres & _ & _ & Hcalls & _).
  split; [exact Hres | exact Hcalls].
Defined.

(** C7, as stated, fails on [unreadableHost] and on [corruptHost]: the read
    fails, and the record is in the storage after it as it was before. *)
Lemma failed_read_keeps_record :
  getStorageFault unreadableHost <> None /\
  fst (getCachedUserInfo (js := refRuntime) userInfoManager unreadableHost) = Return VNull /\
  storage (snd (getCachedUserInfo (js := refRuntime) userInfoManager unreadableHost))
    !! "user_info_cache" = Some sampleText /\
  JSON_parse (JsRuntime := refRuntime) (VString "{oops") =
    Throw (SyntaxError "Unexpected token in JSON") /\
  fst (getCachedUserInfo (js := refRuntime) userInfoManager corruptHost) = Return VNull /\
  storage (snd (getCachedUserInfo (js := refRuntime) userInfoManager corruptHost))
    !! "user_info_cache" = Some (VString "{oops").
Proof. vm_compute. repeat split; discriminate. Qed.

Lemma record_transitions_witness :
  (* no record: a write that goes through creates it *)
  storage (snd (setCachedUserInfo (js := refRuntime) userInfoManager sampleProfile idleHost))
    !! "user_info_cache" = Some sampleText /\
  (* no record: a read does not create one *)
  storage (snd (getCachedUserInfo (js := refRuntime) userInfoManager idleHost))
    !! "user_info_cache" = None /\
  (* a record: an evict removes it *)
  storage (snd (clearCachedUserInfo userInfoManager writtenHost))
    !! "user_info_cache" = None /\
  (* a record: a failed read leaves it *)
  storage (snd (getCachedUserInfo (js := refRuntime) userInfoManager unreadableHost)) =
    storage unreadableHost.
Proof.
  destruct (record_transitions (js := refRuntime) idleHost sampleProfile)
    as (Habsent & Hwrite & _).
  destruct (Habsent eq_refl) as (Hread & _ & _).
  destruct (record_transitions (js := refRuntime) writtenHost sampleProfile)
    as (_ & _ & Hpresent).
  destruct (Hpresent sampleText eq_refl) as (_ & Hevict & _ & _).
  destruct (record_transitions (js := refRuntime) unreadableHost sampleProfile)
    as (_ & _ & Hpresent').
  destruct (Hpresent' sampleText eq_refl) as (_ & _ & _ & Hfailed).
  split; [apply (Hwrite sampleText); reflexivity |].
  split; [exact Hread |].
  split; [apply Hevict; reflexivity |].
  apply Hfailed. left. discriminate.
Defined.

(** C8, as stated, fails on [zeroHost]: the read yields the value 0, and
    [getUserInfo(false)] does not return it but calls the profile source,
    returns what it fetched and overwrites the record. *)
Lemma falsy_hit_is_refetched :
  fst (getCachedUserInfo (js := refRuntime) userInfoManager zeroHost) =
    Return (VNumber (Int 0)) /\
  fst (getUserInfo (js := refRuntime) userInfoManager false zeroHost) =
    Return sampleProfile /\
  fetchCalls zeroHost = 0%nat /\
  fetchCalls (snd (getUserInfo (js := refRuntime) userInfoManager false zeroHost)) = 1%nat /\
  storageWrites zeroHost = 0%nat /\
  storageWrites (snd (getUserInfo (js := refRuntime) userInfoManager false zeroHost)) = 1%nat /\
  storage (snd (getUserInfo (js := refRuntime) userInfoManager false zeroHost))
    !! "user_info_cache" = Some (recordText sampleProfile 1700000000750).
Proof. vm_compute. auto 10. Qed.

Lemma cache_hit_frame_witness :
  fst (getCachedUserInfo (js := refRuntime) userInfoManager
         (withClock 1700000000500 writtenHost)) = Return sampleProfile /\
  truthy sampleProfile = true /\
  fst (getUserInfo (js := refRuntime) userInfoManager false
         (withClock 1700000000500 writtenHost)) = Return sampleProfile /\
  fetchCalls (snd (getUserInfo (js := refRuntime) userInfoManager false
                     (withClock 1700000000500 writtenHost))) =
    fetchCalls (withClock 1700000000500 writtenHost) /\
  storageWrites (snd (getUserInfo (js := refRuntime) userInfoManager false
                        (withClock 1700000000500 writtenHost))) =
    storageWrites (withClock 1700000000500 writtenHost) /\
  storage (snd (getUserInfo (js := refRuntime) userInfoManager false
                  (withClock 1700000000500 writtenHost))) =
    storage (withClock 1700000000500 writtenHost).
Proof.
  assert (Hv : fst (getCachedUserInfo (js := refRuntime) userInfoManager
                      (withClock 1700000000500 writtenHost)) = Return sampleProfile)
    by (vm_compute; reflexivity).
  split; [exact Hv |]. split; [reflexivity |].
  exact (cache_hit_frame (js := refRuntime) (withClock 1700000000500 writtenHost)
           sampleProfile Hv eq_refl).
Defined.

Lemma zeroHost_holds :
  HoldsRecord (js := refRuntime) userInfoManager zeroHost (VNumber (Int 0)) 1700000000000.
Proof.
  split; [reflexivity |].
  exists (recordText (VNumber (Int 0)) 1700000000000).
  eexists. eexists.
  split; [reflexivity |]. split; [reflexivity |].
  split; [vm_compute; reflexivity |].
  split; [reflexivity |]. split; reflexivity.
Qed.

Lemma falsy_profile_refetches_witness :
  fst (getCachedUserInfo (js := refRuntime) userInfoManager zeroHost) =
    Return (VNumber (Int 0)) /\
  truthy (VNumber (Int 0)) = false /\
  fetchCalls (snd (getUserInfo (js := refRuntime) userInfoManager false zeroHost)) =
    S (fetchCalls zeroHost).
Proof.
  apply (falsy_profile_refetches (js := refRuntime) zeroHost (VNumber (Int 0))
           1700000000000).
  - exact zeroHost_holds.
  - vm_compute. reflexivity.
  - simpl. auto.
Defined.

(** * Further properties of the cache *)

Ltac unfold_counts := unfold storageSets, storageRemovals in *.

Section CallsAndKeys.
Context {js : JsRuntime}.
Variable this : UserInfoManager.

(** A read calls [wx.getStorageSync] once, never writes, and removes at
    most once. *)
Lemma getCachedUserInfo_calls (h : Host) :
  storageReads (snd (getCachedUserInfo this h)) = S (storageReads h) /\
  storageSets (snd (getCachedUserInfo this h)) = storageSets h /\
  (storageRemovals (snd (getCachedUserInfo this h)) <= S (storageRemovals h))%nat.
Proof. unfold_counts. unfold_methods. crunch; auto. Qed.


(** A forced refresh writes at most once, after its fetch, and removes
    nothing; what it leaves in the storage is what it found, or that with the
    new text under the key. *)
Lemma getUserInfo_force_storage (h : Host) :
  (storageSets (snd (getUserInfo this true h)) <= S (storageSets h))%nat /\
  storageRemovals (snd (getUserInfo this true h)) = storageRemovals h /\
  (storage (snd (getUserInfo this true h)) = storage h \/
   exists text,
     storage (snd (getUserInfo this true h)) = <[cacheKey this := text]> (storage h)).
Proof. unfold_counts. unfold_methods. crunch; eauto 10. Qed.

(** What a non-forced call does is what its cache read does, followed, on
    a miss, by what a forced refresh does. *)
Lemma getUserInfo_split (h : Host) :
  (exists v, fst (getCachedUserInfo this h) = Return v /\ truthy v = true /\
             fst (getUserInfo this false h) = Return v /\
             trace (snd (getUserInfo this false h)) =
               Console Log [VString "✅ 从缓存获取用户信息:"; v]
               :: trace (snd (getCachedUserInfo this h)) /\
             storage (snd (getUserInfo this false h)) =
               storage (snd (getCachedUserInfo this h))) \/
  (exists v, fst (getCachedUserInfo this h) = Return v /\ truthy v = false /\
             getUserInfo this false h =
               getUserInfo this true (snd (getCachedUserInfo this h))).
Proof.
  destruct (getCachedUserInfo_returns this h) as [v Hv].
  destruct (truthy v) eqn:Ht.
  - left. exists v. repeat split; auto.
    + apply (getUserInfo_hit this h v Hv Ht).
    + unfold getUserInfo, bind, ret, console. simpl.
      destruct (getCachedUserInfo this h) as [o h1]. simpl in *. subst o.
      rewrite Ht. reflexivity.
    + apply (getUserInfo_hit this h v Hv Ht).
  - right. exists v. repeat split; auto. apply (getUserInfo_miss this h v Hv Ht).
Qed.
End CallsAndKeys.

Section MoreOfTheExportedInstance.
Context {js : JsRuntime}.

Local Abbreviation key := (cacheKey userInfoManager).

Lemma forced_rejection (h : Host) (e : JsValue) :
  fst (getUserInfo userInfoManager true h) = Throw e ->
  (userProfile h = Throw VUndefined \/ userProfile h = Throw VNull) /\
  exists message, e = TypeError message.
Proof.
  unfold_methods. simpl.
  destruct (userProfile h) as [res | e0]; simpl.
  - destruct res; simpl; crunch; discriminate.
  - destruct e0; simpl; intros H; try discriminate; inversion H; eauto.
Qed.

(** X1. The only exception that leaves [getUserInfo] is the TypeError of
    [reportError]: when the promise is rejected, the profile source has been
    called and has rejected with [undefined] or [null]. *)
Theorem only_nullish_rejection_escapes (h : Host) (forceRefresh : bool) (e : JsValue) :
  fst (getUserInfo userInfoManager forceRefresh h) = Throw e ->
  (userProfile h = Throw VUndefined \/ userProfile h = Throw VNull) /\
  fetchCalls (snd (getUserInfo userInfoManager forceRefresh h)) = S (fetchCalls h) /\
  exists message, e = TypeError message.
Proof.
  intros He. destruct forceRefresh.
  - destruct (forced_rejection h e He) as [Hp Hm].
    destruct (getUserInfo_force_calls userInfoManager h) as [Hf _]. auto.
  - destruct (getUserInfo_split userInfoManager h)
      as [(v & _ & _ & Hres & _) | (v & _ & _ & Heq)]; [congruence |].
    rewrite Heq in *.
    destruct (getCachedUserInfo_surroundings userInfoManager h)
      as ((_ & _ & _ & Hp & _) & _ & Hf).
    destruct (forced_rejection _ e He) as [Hnullish Hm].
    destruct (getUserInfo_force_calls userInfoManager
                (snd (getCachedUserInfo userInfoManager h))) as [Hf' _].
    rewrite Hp in Hnullish. rewrite Hf', Hf. auto.
Qed.

(** X2. The module touches one key.  Whatever else the storage holds is
    left as it is by [getUserInfo] and by the three cache operations. *)
Theorem other_keys_untouched (h : Host) (forceRefresh : bool) (P : JsValue) (k : string) :
  k <> key ->
  storage (snd (getUserInfo userInfoManager forceRefresh h)) !! k = storage h !! k /\
  storage (snd (getCachedUserInfo userInfoManager h)) !! k = storage h !! k /\
  storage (snd (setCachedUserInfo userInfoManager P h)) !! k = storage h !! k /\
  storage (snd (clearCachedUserInfo userInfoManager h)) !! k = storage h !! k.
Proof.
  intros Hk.
  assert (Hread : forall h0, storage (snd (getCachedUserInfo userInfoManager h0)) !! k =
                             storage h0 !! k).
  { intros h0. destruct (getCachedUserInfo_storage userInfoManager h0) as [-> | ->];
      [reflexivity | apply lookup_delete_ne; congruence]. }
  assert (Hforce : forall h0, storage (snd (getUserInfo userInfoManager true h0)) !! k =
                              storage h0 !! k).
  { intros h0. destruct (getUserInfo_force_storage userInfoManager h0)
      as (_ & _ & [-> | [text ->]]);
      [reflexivity | apply lookup_insert_ne; congruence]. }
  split; [| split; [apply Hread | split]].
  - destruct forceRefresh; [apply Hforce |].
    destruct (getUserInfo_split userInfoManager h)
      as [(v & _ & _ & _ & _ & ->) | (v & _ & _ & ->)].
    + apply Hread.
    + rewrite Hforce. apply Hread.
  - rewrite setCachedUserInfo_storage.
    destruct (JSON_stringify (cacheRecord P (clock h))); [| reflexivity].
    destruct (setStorageFault h); [reflexivity |].
    apply lookup_insert_ne. congruence.
  - rewrite clearCachedUserInfo_storage.
    destruct (removeStorageFault h); [reflexivity |].
    apply lookup_delete_ne. congruence.
Qed.

(** X3. The calls of one [getUserInfo]: at most one fetch, one storage
    read, one write and one removal; a write is made only after a fetch; a
    forced refresh reads and removes nothing. *)
Theorem call_budget (h : Host) (forceRefresh : bool) :
  let final := snd (getUserInfo userInfoManager forceRefresh h) in
  (fetchCalls final <= S (fetchCalls h))%nat /\
  (storageReads final <= S (storageReads h))%nat /\
  (storageSets final <= S (storageSets h))%nat /\
  (storageRemovals final <= S (storageRemovals h))%nat /\
  (storageSets final <> storageSets h -> fetchCalls final = S (fetchCalls h)) /\
  (forceRefresh = true ->
   storageReads final = storageReads h /\ storageRemovals final = storageRemovals h).
Proof.
  intros final. subst final. destruct forceRefresh.
  - destruct (getUserInfo_force_calls userInfoManager h) as [Hf Hr].
    destruct (getUserInfo_force_storage userInfoManager h) as (Hs & Hrm & _).
    rewrite Hf, Hr, Hrm. repeat split; auto; lia.
  - destruct (getCachedUserInfo_calls userInfoManager h) as (Hr & Hs & Hrm).
    destruct (getCachedUserInfo_surroundings userInfoManager h) as (_ & _ & Hf).
    destruct (getUserInfo_split userInfoManager h)
      as [(v & _ & _ & _ & Htr & _) | (v & _ & _ & Heq)].
    + unfold fetchCalls, storageReads, storageSets, storageRemovals in *.
      rewrite Htr. simpl. repeat split; try lia; try discriminate.
    + rewrite Heq.
      destruct (getUserInfo_force_calls userInfoManager
                  (snd (getCachedUserInfo userInfoManager h))) as [Hf' Hr'].
      destruct (getUserInfo_force_storage userInfoManager
                  (snd (getCachedUserInfo userInfoManager h))) as (Hs' & Hrm' & _).
      rewrite Hf', Hr', Hrm', Hf, Hr.
      repeat split; try lia; try discriminate.
Qed.
End MoreOfTheExportedInstance.

Section Compositions.
Context {js : JsRuntime}.

Local Abbreviation key := (cacheKey userInfoManager).

(** A fetch that resolves: the profile returned, the storage left, and the
    host after it. *)
Lemma getUserInfo_force_success (h : Host) (res P : JsValue) :
  userProfile h = Return res ->
  getProp res "userInfo" = Return P ->
  fst (getUserInfo userInfoManager true h) = Return P /\
  storage (snd (getUserInfo userInfoManager true h)) =
    match JSON_stringify (cacheRecord P (clock h + latency h)), setStorageFault h with
    | Return text, None => <[key := text]> (storage h)
    | _, _ => storage h
    end /\
  clock (snd (getUserInfo userInfoManager true h)) = clock h + latency h /\
  sameSurroundings h (snd (getUserInfo userInfoManager true h)).
Proof.
  intros Hp Hinfo. unfold sameSurroundings, cacheRecord. unfold_methods. simpl.
  rewrite Hp. simpl. rewrite Hinfo. simpl.
  destruct (JSON_stringify _); simpl; [| auto 10].
  destruct (setStorageFault h) eqn:Hsf; simpl; auto 10.
Qed.

(** A fetch that fails, with whatever error: nothing is stored. *)
Lemma getUserInfo_force_failure_frame (h : Host) (e : JsValue) :
  userProfile h = Throw e ->
  storage (snd (getUserInfo userInfoManager true h)) = storage h /\
  storageWrites (snd (getUserInfo userInfoManager true h)) = storageWrites h /\
  clock (snd (getUserInfo userInfoManager true h)) = clock h + latency h /\
  sameSurroundings h (snd (getUserInfo userInfoManager true h)).
Proof.
  intros Hp. unfold sameSurroundings. unfold_methods. simpl. rewrite Hp. simpl.
  destruct e; simpl; auto 10.
Qed.

(** A fresh record with truthy data is what [getUserInfo(false)] returns. *)
Lemma fresh_record_is_served (h : Host) (data : JsValue) (stamp : Z) :
  HoldsRecord userInfoManager h data stamp ->
  clock h - stamp < 86400000 ->
  truthy data = true ->
  fst (getUserInfo userInfoManager false h) = Return data /\
  fetchCalls (snd (getUserInfo userInfoManager false h)) = fetchCalls h /\
  storage (snd (getUserInfo userInfoManager false h)) = storage h.
Proof.
  intros Hrec Hage Ht.
  pose proof (getCachedUserInfo_fresh userInfoManager h data stamp Hrec Hage) as Hrun.
  assert (Hv : fst (getCachedUserInfo userInfoManager h) = Return data)
    by (rewrite Hrun; reflexivity).
  destruct (getUserInfo_hit userInfoManager h data Hv Ht) as (Hres & Hsto & Hf & _).
  rewrite Hres, Hsto, Hf, Hrun. auto.
Qed.

(** X4. Caching works end to end.  After a [getUserInfo] that has fetched
    a truthy profile [P] and stored it, any [getUserInfo(false)] made less
    than 86,400,000 ms after the fetch has settled returns [P] from the
    cache: no fetch is made and the storage is left as it is. *)
Theorem fetched_profile_is_served (h h2 : Host) (forceRefresh : bool)
    (res P text : JsValue) :
  userProfile h = Return res ->
  getProp res "userInfo" = Return P ->
  truthy P = true ->
  Serializes P (clock h + latency h) text ->
  setStorageFault h = None ->
  fetchCalls (snd (getUserInfo userInfoManager forceRefresh h)) <> fetchCalls h ->
  storage h2 = storage (snd (getUserInfo userInfoManager forceRefresh h)) ->
  getStorageFault h2 = None ->
  clock h2 - (clock h + latency h) < 86400000 ->
  fst (getUserInfo userInfoManager false h2) = Return P /\
  fetchCalls (snd (getUserInfo userInfoManager false h2)) = fetchCalls h2 /\
  storage (snd (getUserInfo userInfoManager false h2)) = storage h2.
Proof.
  intros Hp Hinfo Ht (Hs & Htt & cache & Hparse & Hd & Hts) Hset Hcalled Hst Hget Hage.
  assert (Hread : exists r, getUserInfo userInfoManager forceRefresh h =
                            getUserInfo userInfoManager true r /\
                            userProfile r = userProfile h /\
                            setStorageFault r = setStorageFault h /\
                            clock r = clock h /\ latency r = latency h).
  { destruct forceRefresh; [exists h; auto 10 |].
    destruct (getCachedUserInfo_surroundings userInfoManager h)
      as ((_ & Hsf & _ & Hup & Hl) & Hc & Hf).
    destruct (getUserInfo_split userInfoManager h)
      as [(v & Hv & Htv & _) | (v & _ & _ & Heq)].
    - exfalso. apply Hcalled.
      destruct (getUserInfo_hit userInfoManager h v Hv Htv) as (_ & _ & -> & _).
      exact Hf.
    - exists (snd (getCachedUserInfo userInfoManager h)). auto 10. }
  destruct Hread as (r & Heq & Hup & Hsf & Hc & Hl).
  rewrite Heq in Hst. rewrite <- Hup in Hp.
  destruct (getUserInfo_force_success r res P Hp Hinfo) as (_ & Hsto & _).
  rewrite Hc, Hl, Hs, Hsf, Hset in Hsto. rewrite Hsto in Hst.
  apply (fresh_record_is_served h2 P (clock h + latency h)); auto.
  split; [exact Hget |].
  exists text, cache, (VNumber (Int (clock h + latency h))).
  rewrite Hst, lookup_insert_eq. auto 10.
Qed.

(** X5. A refresh that fails does not cost the cache.  When a forced
    refresh finds a fresh record with truthy data and its fetch fails, with
    whatever error, the storage is untouched, and the [getUserInfo(false)]
    that follows returns the cached data without a fetch. *)
Theorem failed_refresh_keeps_cache (h : Host) (data e : JsValue) (stamp : Z) :
  HoldsRecord userInfoManager h data stamp ->
  truthy data = true ->
  userProfile h = Throw e ->
  clock h + latency h - stamp < 86400000 ->
  let after := snd (getUserInfo userInfoManager true h) in
  storage after = storage h /\
  fst (getUserInfo userInfoManager false after) = Return data /\
  fetchCalls (snd (getUserInfo userInfoManager false after)) = fetchCalls after.
Proof.
  intros (Hget & text & cache & ts & Hst & Htt & Hparse & Hts & Hnum & Hdata) Ht Hp Hage after.
  destruct (getUserInfo_force_failure_frame h e Hp) as (Hsto & _ & Hc & (Hg & _)).
  fold after in Hsto, Hc, Hg.
  split; [exact Hsto |].
  assert (Hrec : HoldsRecord userInfoManager after data stamp).
  { split; [congruence |]. exists text, cache, ts. rewrite Hsto. auto 10. }
  destruct (fresh_record_is_served after data stamp Hrec ltac:(lia) Ht) as (Hres & Hf & _).
  auto.
Qed.

(** X6. Stale data is never served, even when the eviction fails.  When
    the record is expired and [wx.removeStorageSync] throws, the read still
    returns [null]; the record stays in the storage, and the next read
    returns [null] again. *)
Theorem stale_record_never_served (h : Host) (data e : JsValue) (stamp : Z) :
  HoldsRecord userInfoManager h data stamp ->
  clock h - stamp >= 86400000 ->
  removeStorageFault h = Some e ->
  let after := snd (getCachedUserInfo userInfoManager h) in
  fst (getCachedUserInfo userInfoManager h) = Return VNull /\
  storage after = storage h /\
  storageRemovals after = S (storageRemovals h) /\
  fst (getCachedUserInfo userInfoManager after) = Return VNull.
Proof.
  intros Hrec Hage Hrem after.
  destruct (getCachedUserInfo_expired userInfoManager h data stamp Hrec Hage)
    as [Hres Hsto].
  rewrite Hrem in Hsto. fold after in Hsto.
  destruct (getCachedUserInfo_surroundings userInfoManager h)
    as ((Hg & _ & Hr & _) & Hc & _).
  fold after in Hg, Hr, Hc.
  assert (Hcount : storageRemovals after = S (storageRemovals h)).
  { subst after.
    destruct Hrec as (Hget & text & cache & ts & Hst & Htt & Hparse & Hts & Hnum & Hdata).
    assert (Hlt : (clock h - stamp <? 86400000) = false) by (apply Z.ltb_ge; lia).
    unfold_counts. unfold_methods. simpl in *. rewrite Hget, Hst. simpl.
    rewrite Htt. simpl. rewrite Hparse, Hts. unfold jsSub. simpl. rewrite Hnum. simpl.
    rewrite Hlt. simpl. rewrite Hrem. reflexivity. }
  repeat split; auto.
  assert (Hrec' : HoldsRecord userInfoManager after data stamp).
  { destruct Hrec as (Hget & text & cache & ts & Hrest).
    split; [congruence |]. exists text, cache, ts. rewrite Hsto. exact Hrest. }
  apply (getCachedUserInfo_expired userInfoManager after data stamp Hrec').
  rewrite Hc. exact Hage.
Qed.
End Compositions.

Section Edges.
Context {js : JsRuntime}.

Local Abbreviation key := (cacheKey userInfoManager).

(** Nothing under the key: the read is a miss that changes nothing. *)
Lemma absent_record_reads_null (h : Host) :
  storage h !! key = None ->
  fst (getCachedUserInfo userInfoManager h) = Return VNull /\
  storage (snd (getCachedUserInfo userInfoManager h)) = storage h.
Proof.
  intros Hst. unfold_methods. simpl in *. rewrite Hst. simpl.
  destruct (getStorageFault h); simpl; auto.
Qed.

(** X7. A record without a usable timestamp counts as expired.  When the
    [timestamp] of the stored object is missing or has no numeric value
    (the subtraction gives NaN), the read returns [null] and evicts the
    record, whatever the clock says. *)
Theorem unusable_timestamp_is_expired (h : Host) (text cache timestamp : JsValue) :
  getStorageFault h = None ->
  storage h !! key = Some text ->
  truthy text = true ->
  JSON_parse text = Return cache ->
  getProp cache "timestamp" = Return timestamp ->
  ToNumber timestamp = Return NaN ->
  fst (getCachedUserInfo userInfoManager h) = Return VNull /\
  storageRemovals (snd (getCachedUserInfo userInfoManager h)) = S (storageRemovals h) /\
  storage (snd (getCachedUserInfo userInfoManager h)) =
    match removeStorageFault h with
    | None => delete key (storage h)
    | Some _ => storage h
    end.
Proof.
  intros Hget Hst Htt Hparse Hts Hnum.
  unfold_counts. unfold_methods. simpl in *. rewrite Hget, Hst. simpl.
  rewrite Htt. simpl. rewrite Hparse, Hts. unfold jsSub. simpl. rewrite Hnum. simpl.
  destruct (removeStorageFault h); simpl; auto.
Qed.

(** X8. A missing key and an empty stored value are silent misses: the
    read returns [null] after the one call of [wx.getStorageSync], with no
    line on the console, no parse error and no removal. *)
Theorem missing_or_empty_is_silent_miss (h : Host) :
  getStorageFault h = None ->
  (storage h !! key = None \/
   exists v, storage h !! key = Some v /\ truthy v = false) ->
  getCachedUserInfo userInfoManager h = (Return VNull, emit (GetStorageSync key) h).
Proof.
  intros Hget [Hnone | (v & Hsome & Hf)]; unfold_methods; simpl in *; rewrite Hget.
  - rewrite Hnone. reflexivity.
  - rewrite Hsome. simpl. rewrite Hf. reflexivity.
Qed.

(** X9. A stored text that parses to [null] is not evicted: reading
    [cache.timestamp] throws inside the [try], the read returns [null], the
    text stays in the storage, and [getUserInfo(false)] goes on to fetch. *)
Theorem null_record_is_kept (h : Host) (text : JsValue) :
  getStorageFault h = None ->
  storage h !! key = Some text ->
  truthy text = true ->
  JSON_parse text = Return VNull ->
  fst (getCachedUserInfo userInfoManager h) = Return VNull /\
  storage (snd (getCachedUserInfo userInfoManager h)) = storage h /\
  storageWrites (snd (getCachedUserInfo userInfoManager h)) = storageWrites h /\
  fetchCalls (snd (getUserInfo userInfoManager false h)) = S (fetchCalls h).
Proof.
  intros Hget Hst Htt Hparse.
  assert (Hread : fst (getCachedUserInfo userInfoManager h) = Return VNull /\
                  storage (snd (getCachedUserInfo userInfoManager h)) = storage h /\
                  storageWrites (snd (getCachedUserInfo userInfoManager h)) =
                    storageWrites h).
  { unfold_methods. simpl in *. rewrite Hget, Hst. simpl. rewrite Htt. simpl.
    rewrite Hparse. simpl. auto. }
  destruct Hread as (Hres & Hsto & Hw). repeat split; auto.
  rewrite (getUserInfo_miss userInfoManager h VNull Hres eq_refl).
  destruct (getUserInfo_force_calls userInfoManager
              (snd (getCachedUserInfo userInfoManager h))) as [-> _].
  destruct (getCachedUserInfo_surroundings userInfoManager h) as (_ & _ & ->).
  reflexivity.
Qed.

(** X10. A cache that cannot be written is not fatal.  When the fetch
    succeeds and the write fails ([JSON.stringify] or [wx.setStorageSync]
    throws), [getUserInfo] still resolves to the fetched profile; the
    storage is as it was. *)
Theorem cache_write_failure_is_not_fatal (h : Host) (res P : JsValue) :
  userProfile h = Return res ->
  getProp res "userInfo" = Return P ->
  (setStorageFault h <> None \/
   exists e, JSON_stringify (cacheRecord P (clock h + latency h)) = Throw e) ->
  fst (getUserInfo userInfoManager true h) = Return P /\
  storage (snd (getUserInfo userInfoManager true h)) = storage h.
Proof.
  intros Hp Hinfo Hfail.
  destruct (getUserInfo_force_success h res P Hp Hinfo) as (Hres & Hsto & _).
  split; [exact Hres |]. rewrite Hsto.
  destruct Hfail as [Hset | [e He]].
  - destruct (JSON_stringify _); [| reflexivity].
    destruct (setStorageFault h); [reflexivity | congruence].
  - rewrite He. reflexivity.
Qed.

(** X11. A fetch that resolves with nothing is handled as a failure: when
    [wx.getUserProfile] resolves to [null] or [undefined], reading
    [res.userInfo] throws inside the [try], and [getUserInfo] resolves to
    [null] without a storage call. *)
Theorem empty_response_is_a_failure (h : Host) (res : JsValue) :
  userProfile h = Return res ->
  res = VNull \/ res = VUndefined ->
  fst (getUserInfo userInfoManager true h) = Return VNull /\
  storage (snd (getUserInfo userInfoManager true h)) = storage h /\
  storageWrites (snd (getUserInfo userInfoManager true h)) = storageWrites h.
Proof.
  intros Hp Hres. unfold_methods. simpl. rewrite Hp.
  destruct Hres as [-> | ->]; simpl; auto.
Qed.


End Edges.

Section WritesAndEvictions.
Context {js : JsRuntime}.

Local Abbreviation key := (cacheKey userInfoManager).

Lemma clearCachedUserInfo_surroundings (h : Host) :
  sameSurroundings h (snd (clearCachedUserInfo userInfoManager h)) /\
  clock (snd (clearCachedUserInfo userInfoManager h)) = clock h /\
  fetchCalls (snd (clearCachedUserInfo userInfoManager h)) = fetchCalls h.
Proof. unfold sameSurroundings. unfold_methods. crunch; auto 10. Qed.

(** X13. An evicted record is gone.  After a [clearCachedUserInfo] whose
    removal goes through, nothing is stored under the key, a read returns
    [null], a second evict changes nothing, and [getUserInfo(false)]
    fetches. *)
Theorem evicted_record_is_absent (h : Host) :
  removeStorageFault h = None ->
  let after := snd (clearCachedUserInfo userInfoManager h) in
  storage after !! key = None /\
  fst (getCachedUserInfo userInfoManager after) = Return VNull /\
  storage (snd (clearCachedUserInfo userInfoManager after)) = storage after /\
  fetchCalls (snd (getUserInfo userInfoManager false after)) = S (fetchCalls after).
Proof.
  intros Hrem after.
  assert (Hsto : storage after = delete key (storage h)).
  { subst after. rewrite clearCachedUserInfo_storage, Hrem. reflexivity. }
  assert (Hnone : storage after !! key = None)
    by (rewrite Hsto; apply lookup_delete_eq).
  destruct (absent_record_reads_null after Hnone) as [Hres _].
  repeat split; auto.
  - rewrite clearCachedUserInfo_storage.
    destruct (removeStorageFault after); [reflexivity |].
    apply map_eq. intros k. destruct (decide (key = k)) as [<- | Hk].
    + rewrite lookup_delete_eq. symmetry. exact Hnone.
    + apply lookup_delete_ne. exact Hk.
  - rewrite (getUserInfo_miss userInfoManager after VNull Hres eq_refl).
    destruct (getUserInfo_force_calls userInfoManager
                (snd (getCachedUserInfo userInfoManager after))) as [-> _].
    destruct (getCachedUserInfo_surroundings userInfoManager after) as (_ & _ & ->).
    reflexivity.
Qed.

(** X14. The last write wins.  Two writes leave in the storage what the
    second alone would have left, whether the first went through or not,
    and a read within the expiry time of the second returns the second
    profile. *)
Theorem last_write_wins (P1 P2 text2 : JsValue) (h h2 h3 : Host) :
  storage h2 = storage (snd (setCachedUserInfo userInfoManager P1 h)) ->
  Serializes P2 (clock h2) text2 ->
  setStorageFault h2 = None ->
  storage h3 = storage (snd (setCachedUserInfo userInfoManager P2 h2)) ->
  getStorageFault h3 = None ->
  clock h3 - clock h2 < 86400000 ->
  storage h3 = <[key := text2]> (storage h) /\
  fst (getCachedUserInfo userInfoManager h3) = Return P2.
Proof.
  intros Hfirst Hser Hset Hsecond Hget Hage.
  destruct (written_holds P2 text2 P2 h2 h3 Hser Hset Hsecond Hget) as [Hins Hrec].
  split.
  - rewrite Hins, Hfirst, setCachedUserInfo_storage.
    destruct (JSON_stringify (cacheRecord P1 (clock h))); [| reflexivity].
    destruct (setStorageFault h); [reflexivity |].
    apply insert_insert_eq.
  - rewrite (getCachedUserInfo_fresh userInfoManager h3 P2 (clock h2) Hrec Hage).
    reflexivity.
Qed.

(** X15. [reportError] throws exactly on [undefined] and [null], before
    anything is logged; on any other error it returns after one
    [console.warn] that carries the action.  It never touches the storage
    and never fetches. *)
Theorem reportError_throws_only_on_nullish (h : Host) (action : string) (error : JsValue) :
  (error = VUndefined \/ error = VNull ->
   (exists message, fst (reportError action error h) = Throw (TypeError message)) /\
   snd (reportError action error h) = h) /\
  (error <> VUndefined -> error <> VNull ->
   fst (reportError action error h) = Return tt /\
   exists line report,
     trace (snd (reportError action error h)) = Console Warn [line; report] :: trace h /\
     getProp report "action" = Return (VString action)) /\
  storage (snd (reportError action error h)) = storage h /\
  fetchCalls (snd (reportError action error h)) = fetchCalls h.
Proof.
  unfold_methods. split; [| split].
  - intros [-> | ->]; simpl; eauto.
  - intros Hu Hn. destruct error; simpl; try congruence; eauto.
  - destruct error; simpl; auto.
Qed.

(** X16. A miss is refilled.  When the read of [getUserInfo(false)] gives
    nothing usable and the fetch succeeds, the call resolves to the fetched
    profile after one fetch, and the record of that profile, stamped with
    the time at which the fetch has settled, is under the key. *)
Theorem miss_is_refilled (h : Host) (v res P text : JsValue) :
  fst (getCachedUserInfo userInfoManager h) = Return v ->
  truthy v = false ->
  userProfile h = Return res ->
  getProp res "userInfo" = Return P ->
  JSON_stringify (cacheRecord P (clock h + latency h)) = Return text ->
  setStorageFault h = None ->
  fst (getUserInfo userInfoManager false h) = Return P /\
  fetchCalls (snd (getUserInfo userInfoManager false h)) = S (fetchCalls h) /\
  storage (snd (getUserInfo userInfoManager false h)) !! key = Some text.
Proof.
  intros Hv Ht Hp Hinfo Hser Hset.
  rewrite (getUserInfo_miss userInfoManager h v Hv Ht).
  destruct (getCachedUserInfo_surroundings userInfoManager h)
    as ((_ & Hsf & _ & Hup & Hl) & Hc & Hf).
  rewrite <- Hup in Hp.
  destruct (getUserInfo_force_success _ res P Hp Hinfo) as (Hres & Hsto & _).
  destruct (getUserInfo_force_calls userInfoManager
              (snd (getCachedUserInfo userInfoManager h))) as [Hcalls _].
  rewrite Hc, Hl, Hser, Hsf, Hset in Hsto.
  rewrite Hres, Hcalls, Hf, Hsto, lookup_insert_eq. auto.
Qed.
End WritesAndEvictions.

Module SingletonFrame.
Import Singleton.

(** Once the static field names an instance, the object that [new]
    allocates stays blank, and no other object is touched. *)
Lemma new_keeps_blank (r : Realm) (existing : nat) :
  instance r = Some existing ->
  (forall ref, ref <> existing -> (ref < nextRef r)%nat -> heap r !! ref = Some blank) ->
  instance (snd (new_UserInfoManager r)) = Some existing /\
  nextRef (snd (new_UserInfoManager r)) = S (nextRef r) /\
  (forall ref, ref <> existing -> (ref < nextRef (snd (new_UserInfoManager r)))%nat ->
               heap (snd (new_UserInfoManager r)) !! ref = Some blank).
Proof.
  intros Hi Hblank. unfold new_UserInfoManager. rewrite Hi. simpl.
  repeat split. intros ref Hne Hlt.
  destruct (decide (nextRef r = ref)) as [<- | Hother].
  - apply lookup_insert_eq.
  - rewrite lookup_insert_ne; [apply Hblank; [exact Hne | lia] | exact Hother].
Qed.

Lemma construct_keeps_blank (n : nat) :
  forall (r : Realm) (existing : nat),
    instance r = Some existing ->
    (forall ref, ref <> existing -> (ref < nextRef r)%nat -> heap r !! ref = Some blank) ->
    nextRef (snd (construct n r)) = (n + nextRef r)%nat /\
    (forall ref, ref <> existing -> (ref < nextRef (snd (construct n r)))%nat ->
                 heap (snd (construct n r)) !! ref = Some blank).
Proof.
  induction n as [| n IH]; intros r existing Hi Hblank; simpl.
  - auto.
  - destruct (new_keeps_blank r existing Hi Hblank) as (Hi' & Hnext & Hblank').
    destruct (new_UserInfoManager r) as [ref r'] eqn:Hnew. simpl in *.
    destruct (IH r' existing Hi' Hblank') as (Hnext' & Hblank'').
    destruct (construct n r') as [refs r''] eqn:Hrest. simpl in *.
    split; [lia | exact Hblank''].
Qed.

(** X17. There is one configured manager.  After the module has loaded,
    each later [new UserInfoManager()] allocates one more object, and every
    object but the exported one stays without fields: the constructor
    returns before it assigns [CACHE_EXPIRE] and [cacheKey]. *)
Theorem discarded_objects_stay_blank (n ref : nat) :
  let later := snd (construct n (snd moduleLoad)) in
  ref <> fst moduleLoad ->
  (ref < nextRef later)%nat ->
  nextRef later = S n /\
  heap later !! ref = Some blank /\
  fieldsOf later ref = None.
Proof.
  intros later Hne Hlt.
  destruct (construct_keeps_blank n (snd moduleLoad) (fst moduleLoad) eq_refl)
    as (Hnext & Hblank).
  { intros ref' Hne' Hlt'. simpl in *. lia. }
  fold later in Hnext, Hblank.
  assert (Hheap : heap later !! ref = Some blank) by (apply Hblank; assumption).
  split; [rewrite Hnext; simpl; lia |].
  split; [exact Hheap |].
  unfold fieldsOf. rewrite Hheap. reflexivity.
Qed.
End SingletonFrame.

(** ** The further properties at work *)

Lemma only_nullish_rejection_escapes_witness :
  userProfile (withUserProfile (Throw VUndefined) idleHost) = Throw VUndefined \/
  userProfile (withUserProfile (Throw VUndefined) idleHost) = Throw VNull.
Proof.
  apply (only_nullish_rejection_escapes (js := refRuntime)
           (withUserProfile (Throw VUndefined) idleHost) true
           (TypeError "Cannot read properties of undefined (reading 'message')")).
  vm_compute. reflexivity.
Defined.

Lemma other_keys_untouched_witness :
  storage (snd (getUserInfo (js := refRuntime) userInfoManager true sharedHost)) !! "theme" =
    storage sharedHost !! "theme".
Proof.
  apply (other_keys_untouched (js := refRuntime) sharedHost true sampleProfile "theme").
  discriminate.
Defined.

Lemma call_budget_witness :
  fetchCalls (snd (getUserInfo (js := refRuntime) userInfoManager false idleHost)) =
    S (fetchCalls idleHost).
Proof.
  destruct (call_budget (js := refRuntime) idleHost false) as (_ & _ & _ & _ & Hwrite & _).
  apply Hwrite. vm_compute. discriminate.
Defined.

Lemma fetched_profile_is_served_witness :
  fst (getUserInfo (js := refRuntime) userInfoManager false
         (withClock 1700000001000
            (snd (getUserInfo (js := refRuntime) userInfoManager true idleHost)))) =
    Return sampleProfile.
Proof.
  apply (fetched_profile_is_served (js := refRuntime) idleHost
           (withClock 1700000001000
              (snd (getUserInfo (js := refRuntime) userInfoManager true idleHost)))
           true (VObject [("userInfo", sampleProfile)]) sampleProfile
           (recordText sampleProfile 1700000000250)).
  - reflexivity.
  - reflexivity.
  - reflexivity.
  - split; [reflexivity |]. split; [reflexivity |].
    eexists. split; [vm_compute; reflexivity |]. split; reflexivity.
  - reflexivity.
  - vm_compute. discriminate.
  - reflexivity.
  - reflexivity.
  - vm_compute. reflexivity.
Defined.

Lemma writtenHost_holds (later : Z) (o : Outcome JsValue) :
  HoldsRecord (js := refRuntime) userInfoManager
    (withUserProfile o (withClock later writtenHost)) sampleProfile 1700000000000.
Proof.
  split; [reflexivity |].
  exists sampleText. eexists. eexists.
  split; [reflexivity |]. split; [reflexivity |].
  split; [vm_compute; reflexivity |].
  split; [reflexivity |]. split; reflexivity.
Qed.

Lemma failed_refresh_keeps_cache_witness :
  let h := withUserProfile (Throw VNull) (withClock 1700000000500 writtenHost) in
  fst (getUserInfo (js := refRuntime) userInfoManager false
         (snd (getUserInfo (js := refRuntime) userInfoManager true h))) =
    Return sampleProfile.
Proof.
  intros h.
  apply (failed_refresh_keeps_cache (js := refRuntime) h sampleProfile VNull 1700000000000).
  - apply writtenHost_holds.
  - reflexivity.
  - reflexivity.
  - vm_compute. reflexivity.
Defined.

Lemma stuckHost_holds :
  HoldsRecord (js := refRuntime) userInfoManager stuckHost
    (VObject [("name", VString "A")]) 0.
Proof.
  split; [reflexivity |].
  exists (recordText (VObject [("name", VString "A")]) 0). eexists. eexists.
  split; [reflexivity |]. split; [reflexivity |].
  split; [vm_compute; reflexivity |].
  split; [reflexivity |]. split; reflexivity.
Qed.

Lemma stale_record_never_served_witness :
  fst (getCachedUserInfo (js := refRuntime) userInfoManager stuckHost) = Return VNull /\
  storage (snd (getCachedUserInfo (js := refRuntime) userInfoManager stuckHost)) =
    storage stuckHost.
Proof.
  destruct (stale_record_never_served (js := refRuntime) stuckHost
              (VObject [("name", VString "A")])
              (VObject [("errMsg", VString "removeStorageSync:fail")]) 0
              stuckHost_holds) as (Hres & Hsto & _).
  - vm_compute. discriminate.
  - reflexivity.
  - split; [exact Hres | exact Hsto].
Defined.

Lemma unusable_timestamp_is_expired_witness :
  fst (getCachedUserInfo (js := refRuntime) userInfoManager unstampedHost) = Return VNull /\
  storageRemovals (snd (getCachedUserInfo (js := refRuntime) userInfoManager unstampedHost)) =
    S (storageRemovals unstampedHost).
Proof.
  destruct (unusable_timestamp_is_expired (js := refRuntime) unstampedHost
              (VString (RefJson.printValue (VObject [("data", sampleProfile)])))
              (VObject [("data", sampleProfile)]) VUndefined)
    as (Hres & Hcount & _).
  - reflexivity.
  - reflexivity.
  - reflexivity.
  - vm_compute. reflexivity.
  - reflexivity.
  - reflexivity.
  - split; [exact Hres | exact Hcount].
Defined.

Lemma missing_or_empty_is_silent_miss_witness :
  getCachedUserInfo (js := refRuntime) userInfoManager idleHost =
    (Return VNull, emit (GetStorageSync "user_info_cache") idleHost) /\
  getCachedUserInfo (js := refRuntime) userInfoManager
    (withStorage {[ "user_info_cache" := VString "" ]} idleHost) =
    (Return VNull,
     emit (GetStorageSync "user_info_cache")
       (withStorage {[ "user_info_cache" := VString "" ]} idleHost)).
Proof.
  split.
  - apply (missing_or_empty_is_silent_miss (js := refRuntime) idleHost);
      [reflexivity | left; reflexivity].
  - apply (missing_or_empty_is_silent_miss (js := refRuntime)
             (withStorage {[ "user_info_cache" := VString "" ]} idleHost));
      [reflexivity | right; exists (VString ""); split; reflexivity].
Defined.

Lemma null_record_is_kept_witness :
  fst (getCachedUserInfo (js := refRuntime) userInfoManager nullTextHost) = Return VNull /\
  storage (snd (getCachedUserInfo (js := refRuntime) userInfoManager nullTextHost)) =
    storage nullTextHost.
Proof.
  destruct (null_record_is_kept (js := refRuntime) nullTextHost (VString "null"))
    as (Hres & Hsto & _).
  - reflexivity.
  - reflexivity.
  - reflexivity.
  - vm_compute. reflexivity.
  - split; [exact Hres | exact Hsto].
Defined.

Lemma cache_write_failure_is_not_fatal_witness :
  fst (getUserInfo (js := refRuntime) userInfoManager true fullDiskHost) =
    Return sampleProfile /\
  storage (snd (getUserInfo (js := refRuntime) userInfoManager true fullDiskHost)) =
    storage fullDiskHost.
Proof.
  apply (cache_write_failure_is_not_fatal (js := refRuntime) fullDiskHost
           (VObject [("userInfo", sampleProfile)]) sampleProfile).
  - reflexivity.
  - reflexivity.
  - left. discriminate.
Defined.

Lemma empty_response_is_a_failure_witness :
  fst (getUserInfo (js := refRuntime) userInfoManager true
         (withUserProfile (Return VNull) idleHost)) = Return VNull.
Proof.
  apply (empty_response_is_a_failure (js := refRuntime)
           (withUserProfile (Return VNull) idleHost) VNull).
  - reflexivity.
  - left. reflexivity.
Defined.

Lemma evicted_record_is_absent_witness :
  storage (snd (clearCachedUserInfo userInfoManager writtenHost)) !! "user_info_cache" = None /\
  fst (getCachedUserInfo (js := refRuntime) userInfoManager
         (snd (clearCachedUserInfo userInfoManager writtenHost))) = Return VNull.
Proof.
  destruct (evicted_record_is_absent (js := refRuntime) writtenHost eq_refl)
    as (Hnone & Hres & _).
  split; [exact Hnone | exact Hres].
Defined.

Lemma last_write_wins_witness :
  let second := VObject [("nickName", VString "B")] in
  let h2 := withClock 1700000001000 writtenHost in
  let h3 := withClock 1700000002000
              (snd (setCachedUserInfo (js := refRuntime) userInfoManager second h2)) in
  storage h3 = <[ "user_info_cache" := recordText second 1700000001000 ]> (storage idleHost) /\
  fst (getCachedUserInfo (js := refRuntime) userInfoManager h3) = Return second.
Proof.
  intros second h2 h3.
  apply (last_write_wins (js := refRuntime) sampleProfile second
           (recordText second 1700000001000) idleHost h2 h3).
  - reflexivity.
  - split; [reflexivity |]. split; [reflexivity |].
    eexists. split; [vm_compute; reflexivity |]. split; reflexivity.
  - reflexivity.
  - reflexivity.
  - reflexivity.
  - vm_compute. reflexivity.
Defined.

Lemma reportError_throws_only_on_nullish_witness :
  (exists message,
      fst (reportError "getUserInfo" VUndefined idleHost) = Throw (TypeError message)) /\
  fst (reportError "getUserInfo" denied idleHost) = Return tt.
Proof.
  destruct (reportError_throws_only_on_nullish idleHost "getUserInfo" VUndefined)
    as (Hthrows & _).
  destruct (reportError_throws_only_on_nullish idleHost "getUserInfo" denied)
    as (_ & Hreturns & _).
  split.
  - apply Hthrows. left. reflexivity.
  - apply Hreturns; discriminate.
Defined.

Lemma miss_is_refilled_witness :
  let h := withUserProfile (Return (VObject [("userInfo", sampleProfile)])) staleHost in
  fst (getUserInfo (js := refRuntime) userInfoManager false h) = Return sampleProfile /\
  fetchCalls (snd (getUserInfo (js := refRuntime) userInfoManager false h)) =
    S (fetchCalls h) /\
  storage (snd (getUserInfo (js := refRuntime) userInfoManager false h))
    !! "user_info_cache" = Some (recordText sampleProfile 86400251).
Proof.
  intros h.
  apply (miss_is_refilled (js := refRuntime) h VNull
           (VObject [("userInfo", sampleProfile)]) sampleProfile
           (recordText sampleProfile 86400251)).
  - vm_compute. reflexivity.
  - reflexivity.
  - reflexivity.
  - reflexivity.
  - reflexivity.
  - reflexivity.
Defined.

Lemma discarded_objects_stay_blank_witness :
  Singleton.heap (snd (Singleton.construct 2 (snd Singleton.moduleLoad))) !! 2%nat =
    Some Singleton.blank /\
  Singleton.fieldsOf (snd (Singleton.construct 2 (snd Singleton.moduleLoad))) 2 = None.
Proof.
  destruct (SingletonFrame.discarded_objects_stay_blank 2 2) as (_ & Hheap & Hfields).
  - discriminate.
  - vm_compute. repeat constructor.
  - split; [exact Hheap | exact Hfields].
Defined.
